(** * ShoreSquad: the location resolver and the NEA weather normaliser

    A shallow embedding of [js/app.js]: [GeolocationService] and
    [WeatherService], with the parts of the browser they talk to
    (geolocation, fetch, the clock, [Math.random], local storage) made
    explicit as a [world] that every effectful function threads.

    Numbers.  A JavaScript number is an IEEE 754 binary64 value, so the
    code computes on Rocq's primitive floats: comparisons with NaN are
    false, [5 * 3.6] rounds as it does in the browser.  Time values
    (milliseconds since the epoch) are integers of magnitude at most
    8.64e15, below 2^53, and are kept in [Z]; a number outside that range
    makes an Invalid Date, on which [toISOString] throws.
    [calculateDistance] is built on [Math.sin], [Math.cos] and
    [Math.atan2], which ECMAScript specifies as implementation-approximated:
    it prescribes their special values and no accuracy.  The function is
    therefore embedded on doubles with these three as parameters, and what
    is proved of it names the properties of the engine it relies on.

    Exceptions.  A [throw] (or a rejected promise that is awaited) is the
    [Throw] case of [completion]; [try ... catch] is [mtry]. *)

From Stdlib Require Import ZArith List String Ascii Bool Lia DecimalString.
From Stdlib Require Import Floats.
Import ListNotations.

Set Warnings "-inexact-float".
Local Open Scope string_scope.

(** ** The JavaScript fragment the services rely on *)

Module JS.

(** The error objects the code can raise or receive. *)
Inductive error : Type :=
| TypeError (message : string)
| ReferenceError (message : string)
| RangeError (message : string)
| SyntaxError (message : string)
| Error (message : string).

(** The outcome of evaluating a statement list: a value, or a throw.  For an
    [async] function this is also how its promise settles. *)
Inductive completion (A : Type) : Type :=
| Normal (a : A)
| Throw (e : error).
Arguments Normal {A} a.
Arguments Throw {A} e.

Definition bind {A B} (c : completion A) (k : A -> completion B) : completion B :=
  match c with
  | Normal a => k a
  | Throw e => Throw e
  end.

(** A [let]/[const] binding is in its temporal dead zone from the start of
    its block until its initialiser has finished; reading it there throws. *)
Inductive binding (A : Type) : Type :=
| Uninitialized
| Initialized (a : A).
Arguments Uninitialized {A}.
Arguments Initialized {A} a.

Definition get_binding {A} (name : string) (b : binding A) : completion A :=
  match b with
  | Initialized a => Normal a
  | Uninitialized =>
      Throw (ReferenceError ("Cannot access '" ++ name ++ "' before initialization"))
  end.

(** [x[0]] on an array, followed by a property read: [undefined.p] throws. *)
Definition first_or_throw {A} (what : string) (l : list A) : completion A :=
  match l with
  | x :: _ => Normal x
  | [] => Throw (TypeError ("Cannot read properties of undefined (reading '" ++ what ++ "')"))
  end.

(** [arr.find(p) || arr[0]]: the entries are objects, hence truthy. *)
Definition find_or_first {A} (p : A -> bool) (arr : list A) : option A :=
  match find p arr with
  | Some x => Some x
  | None => hd_error arr
  end.

(** Relational operators on numbers. *)
Definition gt (a b : float) : bool := PrimFloat.ltb b a.
Definition lt (a b : float) : bool := PrimFloat.ltb a b.

(** The integer nearest to a finite float of negative exponent, ties going
    up: [floor (x + 1/2)] computed exactly on the mantissa. *)
Definition round_half_up (negative : bool) (m : positive) (e : Z) : Z :=
  let sm := if negative then Z.neg m else Z.pos m in
  ((2 * sm + 2 ^ (- e)) / 2 ^ (1 - e))%Z.

Definition float_of_integer (negative : bool) (n : Z) : float :=
  match n with
  | Z0 => if negative then (- 0)%float else 0%float
  | Zpos p => PrimFloat.of_uint63 (Uint63.of_Z (Zpos p))
  | Zneg p => (- PrimFloat.of_uint63 (Uint63.of_Z (Zpos p)))%float
  end.

(** [Math.round]: NaN, the infinities, the zeros and every float that is
    already integral are returned as they are; [-0.5 <= x < 0] gives [-0]. *)
Definition Math_round (x : float) : float :=
  match Prim2SF x with
  | S754_finite s m e =>
      if (0 <=? e)%Z then x
      else float_of_integer s (round_half_up s m e)
  | _ => x
  end.

End JS.

Import JS.

Notation "x <- c ;; k" := (JS.bind c (fun x => k))
  (at level 61, c at next level, right associativity).

(** ** Doubles and JSON *)

Module Float64.
(** [Number.isFinite]: neither NaN nor an infinity. *)
Definition finite (x : float) : bool :=
  match Prim2SF x with
  | S754_nan | S754_infinity _ => false
  | _ => true
  end.

(** [x] is a zero, or a finite double whose exponent (for a 53-bit integer
    mantissa) is at most [E]: a bound on its magnitude. *)
Definition small (x : float) (E : Z) : Prop :=
  match Prim2SF x with
  | S754_zero _ => True
  | S754_finite _ _ e => (e <= E)%Z
  | _ => False
  end.
End Float64.

Module JSON.
(** The values a JSON text denotes, as far as the stored objects go. *)
#[local] Unset Elimination Schemes.
Inductive value : Type :=
| JNull
| JNumber (n : float)
| JString (s : string)
| JObject (members : list (string * value)).
#[local] Set Elimination Schemes.

(** What [JSON.parse] reads back from the text [JSON.stringify] writes for
    a number: the number itself, except that [-0] is written "0" and NaN
    and the infinities are written "null". *)
Definition of_number (x : float) : value :=
  match Prim2SF x with
  | S754_nan | S754_infinity _ => JNull
  | S754_zero _ => JNumber 0
  | S754_finite _ _ _ => JNumber x
  end.
End JSON.

(** ** The data that flows through the weather pipeline *)

(** The body of the realtime-readings endpoint, as far as the code reads it:
    [data.items[0].readings.<category>], each category an array of
    [{station_id, value}]; the code tests for [wind_speed] only. *)
Module Realtime.
Record station_reading : Type := {
  station_id : string;
  value : float
}.

Record readings_t : Type := {
  air_temperature : list station_reading;
  relative_humidity : list station_reading;
  wind_speed : option (list station_reading);
  rainfall : list station_reading
}.

Record item : Type := {
  timestamp : string;
  readings : readings_t
}.

Record payload : Type := {
  items : list item
}.
End Realtime.

(** The body of the 4-day-forecast endpoint: [data.items[0].forecasts]. *)
Module Forecast.
Record range : Type := {
  high : float;
  low : float
}.

(** [wind.speed] is copied as it comes: the endpoint sends a range, the
    fallback data a number. *)
Inductive speed_t : Type :=
| SpeedNumber (v : float)
| SpeedRange (r : range).

Record wind_t : Type := {
  speed : speed_t;
  direction : string
}.

Record day : Type := {
  date : string;
  forecast : string;
  temperature : range;
  relative_humidity : range;
  wind : option wind_t
}.

Record item : Type := {
  forecasts : list day
}.

Record payload : Type := {
  items : list item
}.
End Forecast.

(** The normalised shapes the page renders. *)
Module CurrentWeather.
Record t : Type := {
  temperature : float;
  humidity : float;
  windSpeed : float;
  rainfall : float;
  condition : string;
  description : string;
  icon : string;
  timestamp : string;
  location : string
}.
End CurrentWeather.

Module ForecastDay.
Record t : Type := {
  date : string;
  forecast : string;
  temperature : Forecast.range;
  humidity : Forecast.range;
  wind : option Forecast.wind_t;
  icon : string;
  description : string
}.
End ForecastDay.

Module WeatherData.
Record t : Type := {
  current : CurrentWeather.t;
  forecast : list ForecastDay.t
}.
End WeatherData.

(** ** The browser: what the page can observe and change *)

Module Browser.

(** A coordinate as the page handles it: the geolocation callback builds
    [{lat, lng, accuracy}], the configured default is [{lat, lng, name}]. *)
Record location : Type := {
  lat : float;
  lng : float;
  accuracy : option float;
  name : option string
}.

(** [JSON.stringify] of a coordinate object, kept as the value the text
    denotes: the properties in the order the object literals list them,
    those the object does not have left out. *)
Definition JSON_stringify_location (value : location) : JSON.value :=
  JSON.JObject
    ([("lat", JSON.of_number (lat value)); ("lng", JSON.of_number (lng value))] ++
     match accuracy value with
     | Some a => [("accuracy", JSON.of_number a)]
     | None => []
     end ++
     match name value with
     | Some n => [("name", JSON.JString n)]
     | None => []
     end).

(** How the browser answers [navigator.geolocation.getCurrentPosition]: it
    calls the success callback with a position, or the error callback with a
    [GeolocationPositionError] (code 1 permission denied, 2 position
    unavailable, 3 timeout, the last after the 10000 ms of the options). *)
Inductive geolocation_answer : Type :=
| GeoPosition (latitude longitude accuracy : float)
| GeoError (code : Z) (message : string).

(** How [fetch] followed by [response.json()] goes for one URL. *)
Inductive fetch_outcome (A : Type) : Type :=
| NetworkFailure (e : error)
| Response (ok : bool) (status : Z) (json : completion A).
Arguments NetworkFailure {A} e.
Arguments Response {A} ok status json.

Record world : Type := {
  (** [navigator.geolocation]; [None] when the browser has none. *)
  geolocation : option geolocation_answer;
  (** [localStorage]: key/value pairs, newest first, each value a JSON
      text kept as the value it denotes; [setItem] throws when the quota is
      exceeded. *)
  localStorage : list (string * JSON.value);
  storage_full : bool;
  (** The answers of the two NEA endpoints. *)
  realtime_response : fetch_outcome Realtime.payload;
  forecast_response : fetch_outcome Forecast.payload;
  (** The clock: [clock n] is what the [n]-th reading ([Date.now()] or
      [new Date()]) returns, in milliseconds since the epoch. *)
  clock : nat -> Z;
  clock_reads : nat;
  (** [Math.random]: [random n] is the [n]-th draw. *)
  random : nat -> float;
  random_draws : nat
}.

(** An effectful computation: it may throw, and it changes the world. *)
Definition M (A : Type) : Type := world -> completion A * world.

Definition ret {A} (a : A) : M A := fun w => (Normal a, w).

Definition throw {A} (e : error) : M A := fun w => (Throw e, w).

Definition mbind {A B} (c : M A) (k : A -> M B) : M B :=
  fun w =>
    match c w with
    | (Normal a, w') => k a w'
    | (Throw e, w') => (Throw e, w')
    end.

(** [try { body } catch (error) { handler }] *)
Definition mtry {A} (body : M A) (handler : error -> M A) : M A :=
  fun w =>
    match body w with
    | (Normal a, w') => (Normal a, w')
    | (Throw e, w') => handler e w'
    end.

Definition lift {A} (c : completion A) : M A := fun w => (c, w).

Definition tick (w : world) : world :=
  {| geolocation := geolocation w;
     localStorage := localStorage w;
     storage_full := storage_full w;
     realtime_response := realtime_response w;
     forecast_response := forecast_response w;
     clock := clock w;
     clock_reads := S (clock_reads w);
     random := random w;
     random_draws := random_draws w |}.

Definition draw (w : world) : world :=
  {| geolocation := geolocation w;
     localStorage := localStorage w;
     storage_full := storage_full w;
     realtime_response := realtime_response w;
     forecast_response := forecast_response w;
     clock := clock w;
     clock_reads := clock_reads w;
     random := random w;
     random_draws := S (random_draws w) |}.

Definition store (key : string) (value : location) (w : world) : world :=
  {| geolocation := geolocation w;
     localStorage := (key, JSON_stringify_location value) :: localStorage w;
     storage_full := storage_full w;
     realtime_response := realtime_response w;
     forecast_response := forecast_response w;
     clock := clock w;
     clock_reads := clock_reads w;
     random := random w;
     random_draws := random_draws w |}.

(** [Date.now()], and the time value of [new Date()]. *)
Definition Date_now : M Z :=
  fun w => (Normal (clock w (clock_reads w)), tick w).

(** [Math.random()] *)
Definition Math_random : M float :=
  fun w => (Normal (random w (random_draws w)), draw w).

(** [localStorage.setItem(key, JSON.stringify(value))] *)
Definition localStorage_setItem (key : string) (value : location) : M unit :=
  fun w =>
    if storage_full w then (Throw (Error "QuotaExceededError"), w)
    else (Normal tt, store key value w).

(** [localStorage.getItem(key)], parsed. *)
Fixpoint localStorage_getItem (key : string) (items : list (string * JSON.value))
  : option JSON.value :=
  match items with
  | [] => None
  | (k, v) :: rest => if String.eqb k key then Some v else localStorage_getItem key rest
  end.

(** *** [Date.prototype.toISOString] *)

Definition digit (n : Z) : string :=
  String (ascii_of_nat (48 + Z.to_nat (n mod 10))) EmptyString.

(** [n >= 0] written with exactly [width] decimal digits. *)
Fixpoint pad (width : nat) (n : Z) : string :=
  match width with
  | O => EmptyString
  | S k => pad k (n / 10) ++ digit n
  end.

(** The proleptic Gregorian date of a day number (days since 1970-01-01). *)
Definition civil_from_days (days : Z) : Z * Z * Z :=
  let z := (days + 719468)%Z in
  let era := (z / 146097)%Z in
  let doe := (z - era * 146097)%Z in
  let yoe := ((doe - doe / 1460 + doe / 36524 - doe / 146096) / 365)%Z in
  let doy := (doe - (365 * yoe + yoe / 4 - yoe / 100))%Z in
  let mp := ((5 * doy + 2) / 153)%Z in
  let d := (doy - (153 * mp + 2) / 5 + 1)%Z in
  let m := if (mp <? 10)%Z then (mp + 3)%Z else (mp - 9)%Z in
  let y := (yoe + era * 400 + (if (m <=? 2)%Z then 1 else 0))%Z in
  (y, m, d).

Definition iso_year (y : Z) : string :=
  if ((0 <=? y) && (y <=? 9999))%Z then pad 4 y
  else if (y <? 0)%Z then "-" ++ pad 6 (- y)
  else "+" ++ pad 6 y.

Definition iso_date (ms : Z) : string :=
  let '(y, m, d) := civil_from_days (ms / 86400000) in
  iso_year y ++ "-" ++ pad 2 m ++ "-" ++ pad 2 d.

Definition iso_time (ms : Z) : string :=
  let t := (ms mod 86400000)%Z in
  pad 2 (t / 3600000) ++ ":" ++ pad 2 (t / 60000 mod 60) ++ ":" ++
  pad 2 (t / 1000 mod 60) ++ "." ++ pad 3 (t mod 1000) ++ "Z".

(** [new Date(ms).toISOString()], for a time value in the range of [Date]. *)
Definition toISOString (ms : Z) : string := iso_date ms ++ "T" ++ iso_time ms.

(** The time values a [Date] can hold; [new Date(ms)] is an Invalid Date
    outside them. *)
Definition Date_valid (ms : Z) : bool :=
  ((-8640000000000000 <=? ms) && (ms <=? 8640000000000000))%Z.

(** [new Date(ms).toISOString()] for any number [ms]: a RangeError on an
    Invalid Date.  ([new Date()] holds a reading of the clock, which is a
    time value: [toISOString] above is what it gives there.) *)
Definition Date_toISOString (ms : Z) : completion string :=
  if Date_valid ms then Normal (toISOString ms)
  else Throw (RangeError "Invalid time value").

(** [s.split('T')[0]]: what precedes the first "T". *)
Fixpoint split_T_0 (s : string) : string :=
  match s with
  | EmptyString => EmptyString
  | String c rest => if Ascii.eqb c "T" then EmptyString else String c (split_T_0 rest)
  end.

(** [new Date(ms).toISOString().split('T')[0]] *)
Definition toISOString_date (ms : Z) : completion string :=
  iso <- Date_toISOString ms ;;
  Normal (split_T_0 iso).

End Browser.

Import Browser.

Notation "x <~ c ;; k" := (Browser.mbind c (fun x => k))
  (at level 61, c at next level, right associativity).

(** ** APP CONFIGURATION *)

Module CONFIG.
Definition NEA_API_BASE : string := "https://api.data.gov.sg/v1".

Module WEATHER_ENDPOINTS.
Definition realtime : string := "/environment/realtime-weather-readings".
Definition forecast : string := "/environment/4-day-weather-forecast".
End WEATHER_ENDPOINTS.

(** Singapore default location (Pasir Ris area) *)
Definition DEFAULT_LOCATION : location :=
  {| lat := 1.381497;
     lng := 103.955574;
     accuracy := None;
     name := Some "Pasir Ris, Singapore" |}.

Module STORAGE_KEYS.
Definition USER_LOCATION : string := "shoresquad_user_location".
End STORAGE_KEYS.
End CONFIG.

(** ** UTILITY FUNCTIONS *)

Module Utils.
(** Safe localStorage write: a throwing [setItem] is caught and reported
    as [false]. *)
Definition setLocalStorage (key : string) (value : location) : M bool :=
  mtry (_ <~ localStorage_setItem key value ;; ret true)
       (fun error => ret false).

(** Safe localStorage read: [item ? JSON.parse(item) : defaultValue].  A
    stored text is never the empty string. *)
Definition getLocalStorage (key : string) (defaultValue : JSON.value) : M JSON.value :=
  mtry (fun w =>
          match localStorage_getItem key (localStorage w) with
          | Some item => ret item w
          | None => ret defaultValue w
          end)
       (fun error => ret defaultValue).
End Utils.

(** ** GEOLOCATION SERVICE *)

Module GeolocationService.

(** The promise [getCurrentPosition] returns, settled: [Normal] when
    [resolve] was called, [Throw] when [reject] was. *)
Definition getCurrentPosition : M location :=
  fun w =>
    match geolocation w with
    | None => throw (Error "Geolocation not supported") w
    | Some (GeoPosition latitude longitude acc) =>
        let location :=
          {| lat := latitude; lng := longitude; accuracy := Some acc; name := None |} in
        (_ <~ Utils.setLocalStorage CONFIG.STORAGE_KEYS.USER_LOCATION location ;;
         ret location) w
    | Some (GeoError code message) =>
        (* Use default location *)
        ret CONFIG.DEFAULT_LOCATION w
    end.

Section Distance.
Local Open Scope float_scope.

(** The engine's [Math.sin], [Math.cos] and [Math.atan2]. *)
Variables Math_sin Math_cos : float -> float.
Variable Math_atan2 : float -> float -> float.

(** [Math.PI], the double nearest to the number. *)
Definition Math_PI : float := 3.141592653589793.

(** [Math.sqrt], the correctly rounded square root of IEEE 754. *)
Definition Math_sqrt (x : float) : float := PrimFloat.sqrt x.

Definition calculateDistance (lat1 lng1 lat2 lng2 : float) : float :=
  let R := 6371e3 in (* Earth's radius in meters *)
  let φ1 := lat1 * Math_PI / 180 in
  let φ2 := lat2 * Math_PI / 180 in
  let Δφ := (lat2 - lat1) * Math_PI / 180 in
  let Δλ := (lng2 - lng1) * Math_PI / 180 in
  let a := Math_sin (Δφ / 2) * Math_sin (Δφ / 2) +
           Math_cos φ1 * Math_cos φ2 *
           Math_sin (Δλ / 2) * Math_sin (Δλ / 2) in
  let c := 2 * Math_atan2 (Math_sqrt a) (Math_sqrt (1 - a)) in
  R * c.
End Distance.

End GeolocationService.

(** ** String helpers of the forecast mapping *)

Module Str.
(** [String.prototype.toLowerCase] on the ASCII letters. *)
Definition lower_ascii (c : ascii) : ascii :=
  let n := nat_of_ascii c in
  if ((65 <=? n) && (n <=? 90))%nat then ascii_of_nat (n + 32) else c.

Fixpoint toLowerCase (s : string) : string :=
  match s with
  | EmptyString => EmptyString
  | String c rest => String (lower_ascii c) (toLowerCase rest)
  end.

(** [haystack.includes(needle)] *)
Fixpoint includes (haystack needle : string) : bool :=
  String.prefix needle haystack ||
  match haystack with
  | EmptyString => false
  | String _ rest => includes rest needle
  end.

(** Template-literal rendering of an integer. *)
Definition of_Z (n : Z) : string :=
  DecimalString.NilZero.string_of_int (Z.to_int n).
End Str.

(** ** SINGAPORE NEA WEATHER SERVICE *)

Module WeatherService.
Import Realtime.
Local Open Scope float_scope.

(** [fetch(url, ...)]; [if (!response.ok) throw ...]; [response.json()].
    A fetch that fails, a status outside 2xx and a body that does not
    parse all reject the returned promise. *)
Definition fetchRealtimeWeather : M Realtime.payload :=
  fun w =>
    match realtime_response w with
    | NetworkFailure e => throw e w
    | Response ok status json =>
        if negb ok then throw (Error ("NEA API error: " ++ Str.of_Z status)) w
        else lift json w
    end.

Definition fetch4DayForecast : M Forecast.payload :=
  fun w =>
    match forecast_response w with
    | NetworkFailure e => throw e w
    | Response ok status json =>
        if negb ok then throw (Error ("NEA Forecast API error: " ++ Str.of_Z status)) w
        else lift json w
    end.

Definition determineCondition (temp humidity rainfall : float) : string :=
  if gt rainfall 5 then "rainy"
  else if gt humidity 80 then "humid"
  else if gt temp 32 then "hot"
  else if lt temp 26 then "cool"
  else "pleasant".

Definition getConditionDescription (temp rainfall : float) : string :=
  if gt rainfall 10 then "Heavy rain - consider rescheduling cleanup"
  else if gt rainfall 2 then "Light rain - bring umbrellas!"
  else if gt temp 33 then "Very hot - stay hydrated and take breaks"
  else if gt temp 30 then "Great weather for beach cleanup!"
  else "Perfect conditions for outdoor activities!".

Definition getWeatherIcon (rainfall temp : float) : string :=
  if gt rainfall 5 then "🌧️"
  else if gt rainfall 0 then "🌦️"
  else if gt temp 32 then "☀️"
  else if gt temp 28 then "🌤️"
  else "⛅".

Definition getForecastIcon (forecast : string) : string :=
  let forecastLower := Str.toLowerCase forecast in
  if Str.includes forecastLower "rain" || Str.includes forecastLower "shower" then "🌧️"
  else if Str.includes forecastLower "thunder" then "⛈️"
  else if Str.includes forecastLower "cloud" then "☁️"
  else if Str.includes forecastLower "partly" then "⛅"
  else if Str.includes forecastLower "fair" || Str.includes forecastLower "sunny" then "☀️"
  else "🌤️".

Definition getForecastDescription (forecast : string) : string :=
  let forecastLower := Str.toLowerCase forecast in
  if Str.includes forecastLower "rain" || Str.includes forecastLower "shower" then
    "Check weather before heading out"
  else if Str.includes forecastLower "thunder" then
    "Not suitable for beach activities"
  else if Str.includes forecastLower "fair" || Str.includes forecastLower "sunny" then
    "Perfect for beach cleanup!"
  else "Good conditions for outdoor activities".

Definition getFallbackCurrentWeather : M CurrentWeather.t :=
  now <~ Date_now ;;
  ret {| CurrentWeather.temperature := 29;
         CurrentWeather.humidity := 78;
         CurrentWeather.windSpeed := 12;
         CurrentWeather.rainfall := 0;
         CurrentWeather.condition := "pleasant";
         CurrentWeather.description := "Typical Singapore weather - great for beach cleanup!";
         CurrentWeather.icon := "🌤️";
         CurrentWeather.timestamp := toISOString now;
         CurrentWeather.location := "Singapore" |}.

(** [days.map((day, index) => ...)]: the callback runs once per element,
    in order, each run reading the clock and drawing afresh. *)
Fixpoint map_with_index {A B} (callback : A -> Z -> M B) (arr : list A) (index : Z)
  : M (list B) :=
  match arr with
  | [] => ret []
  | x :: rest =>
      y <~ callback x index ;;
      ys <~ map_with_index callback rest (index + 1)%Z ;;
      ret (y :: ys)
  end.

(** The object literal of the fallback forecast, evaluated field by
    field in source order: the date first, which throws when the day is
    past the range of [Date]. *)
Definition fallbackForecastDay (day : string) (index : Z) : M ForecastDay.t :=
  now <~ Date_now ;;
  date <~ lift (toISOString_date (now + index * 24 * 60 * 60 * 1000)%Z) ;;
  r_temp_high <~ Math_random ;;
  r_temp_low <~ Math_random ;;
  r_hum_high <~ Math_random ;;
  r_hum_low <~ Math_random ;;
  r_wind <~ Math_random ;;
  ret {| ForecastDay.date := date;
         ForecastDay.forecast := "Partly Cloudy";
         ForecastDay.temperature :=
           {| Forecast.high := 32 + Math_round (r_temp_high * 3);
              Forecast.low := 26 + Math_round (r_temp_low * 2) |};
         ForecastDay.humidity :=
           {| Forecast.high := 85 + Math_round (r_hum_high * 10);
              Forecast.low := 65 + Math_round (r_hum_low * 10) |};
         ForecastDay.wind :=
           Some {| Forecast.speed := Forecast.SpeedNumber (10 + Math_round (r_wind * 5));
                   Forecast.direction := "NE" |};
         ForecastDay.icon := if (index =? 0)%Z then "🌤️" else "⛅";
         ForecastDay.description := "Good conditions for outdoor activities" |}.

Definition getFallbackForecastData : M (list ForecastDay.t) :=
  let days := ["Today"; "Tomorrow"; "Day 3"; "Day 4"] in
  map_with_index fallbackForecastDay days 0%Z.

Definition getFallbackWeatherData : M WeatherData.t :=
  current <~ getFallbackCurrentWeather ;;
  forecast <~ getFallbackForecastData ;;
  ret {| WeatherData.current := current; WeatherData.forecast := forecast |}.

(** Changi area *)
Definition is_changi (station : station_reading) : bool :=
  String.eqb (station_id station) "S24" || String.eqb (station_id station) "S109".

(** Pasir Ris *)
Definition is_pasir_ris (station : station_reading) : bool :=
  String.eqb (station_id station) "S64".

(** A number has no property [value]: [windSpeed.value] would be
    [undefined], and [undefined * 3.6] is NaN. *)
Definition value_of_number (n : float) : float := nan.

(** The object literal [formatCurrentWeather] returns. *)
Definition currentWeatherRecord
  (temperature humidity windSpeed rainfall : float) (timestamp : string)
  : CurrentWeather.t :=
  {| CurrentWeather.temperature := Math_round temperature;
     CurrentWeather.humidity := Math_round humidity;
     CurrentWeather.windSpeed := Math_round windSpeed;
     CurrentWeather.rainfall := rainfall;
     CurrentWeather.condition := determineCondition temperature humidity rainfall;
     CurrentWeather.description := getConditionDescription temperature rainfall;
     CurrentWeather.icon := getWeatherIcon rainfall temperature;
     CurrentWeather.timestamp := timestamp;
     CurrentWeather.location := "Pasir Ris Area" |}.

(** The [try] block of [formatCurrentWeather].  While the initialiser of
    [const windSpeed] runs, [windSpeed] itself is still uninitialised, and
    the branch taken for a wind reading reads it. *)
Definition formatCurrentWeather_try (data : Realtime.payload)
  : completion CurrentWeather.t :=
  items <- first_or_throw "readings" (Realtime.items data) ;; (* Latest reading *)
  let readings := Realtime.readings items in
  (* Find nearest station readings *)
  let tempReading := find_or_first is_changi (air_temperature readings) in
  let humidityReading := find_or_first is_changi (relative_humidity readings) in
  let windReading :=
    match wind_speed readings with
    | Some stations => find_or_first is_changi stations
    | None => None
    end in
  let rainfallReading := find_or_first is_pasir_ris (rainfall readings) in
  let temperature := match tempReading with Some r => value r | None => 28 end in
  let humidity := match humidityReading with Some r => value r | None => 75 end in
  windSpeed <-
    match windReading with
    | Some _ =>
        windSpeed <- get_binding "windSpeed" (@Uninitialized float) ;;
        Normal (Math_round (value_of_number windSpeed * 3.6)) (* m/s to km/h *)
    | None => Normal 10
    end ;;
  let rainfall := match rainfallReading with Some r => value r | None => 0 end in
  Normal (currentWeatherRecord temperature humidity windSpeed rainfall
            (Realtime.timestamp items)).

Definition formatCurrentWeather (data : Realtime.payload) : M CurrentWeather.t :=
  mtry (lift (formatCurrentWeather_try data))
       (fun error => getFallbackCurrentWeather).

Definition formatForecastDay (day : Forecast.day) : ForecastDay.t :=
  {| ForecastDay.date := Forecast.date day;
     ForecastDay.forecast := Forecast.forecast day;
     ForecastDay.temperature :=
       {| Forecast.high := Forecast.high (Forecast.temperature day);
          Forecast.low := Forecast.low (Forecast.temperature day) |};
     ForecastDay.humidity :=
       {| Forecast.high := Forecast.high (Forecast.relative_humidity day);
          Forecast.low := Forecast.low (Forecast.relative_humidity day) |};
     ForecastDay.wind :=
       match Forecast.wind day with
       | Some wind =>
           Some {| Forecast.speed := Forecast.speed wind;
                   Forecast.direction := Forecast.direction wind |}
       | None => None
       end;
     ForecastDay.icon := getForecastIcon (Forecast.forecast day);
     ForecastDay.description := getForecastDescription (Forecast.forecast day) |}.

Definition formatForecastData (data : Forecast.payload) : M (list ForecastDay.t) :=
  mtry (lift (items <- first_or_throw "forecasts" (Forecast.items data) ;;
              let forecasts := Forecast.forecasts items in
              Normal (map formatForecastDay forecasts)))
       (fun error => getFallbackForecastData).

Definition getCurrentWeather : M WeatherData.t :=
  mtry ((* Get real-time weather readings from NEA *)
        realtimeData <~ fetchRealtimeWeather ;;
        forecastData <~ fetch4DayForecast ;;
        current <~ formatCurrentWeather realtimeData ;;
        forecast <~ formatForecastData forecastData ;;
        ret {| WeatherData.current := current; WeatherData.forecast := forecast |})
       (fun error => getFallbackWeatherData).

End WeatherService.

(** ** Vocabulary of the statements *)

Module Spec.
Import Realtime.

(** The promise a computation returns is rejected. *)
Definition rejects {A} (c : M A) (w : world) : Prop :=
  exists e, fst (c w) = Throw e.

(** The entry [formatCurrentWeather] selects in a category: a preferred
    station, or else the first one listed. *)
Definition selected (preferred : station_reading -> bool) (stations : list station_reading)
  : option station_reading :=
  find_or_first preferred stations.

(** The wind reading selected in the latest item of a payload, if any. *)
Definition windReading (data : Realtime.payload) : option station_reading :=
  match Realtime.items data with
  | latest :: _ =>
      match wind_speed (Realtime.readings latest) with
      | Some stations => selected WeatherService.is_changi stations
      | None => None
      end
  | [] => None
  end.

(** The conversion the comment on [windSpeed] announces: m/s to km/h,
    rounded. *)
Definition kmh_rounded (metres_per_second : float) : float :=
  Math_round (metres_per_second * 3.6)%float.

(** Two current-weather records agree on everything but the timestamp. *)
Definition same_current_but_timestamp (a b : CurrentWeather.t) : Prop :=
  CurrentWeather.temperature a = CurrentWeather.temperature b /\
  CurrentWeather.humidity a = CurrentWeather.humidity b /\
  CurrentWeather.windSpeed a = CurrentWeather.windSpeed b /\
  CurrentWeather.rainfall a = CurrentWeather.rainfall b /\
  CurrentWeather.condition a = CurrentWeather.condition b /\
  CurrentWeather.description a = CurrentWeather.description b /\
  CurrentWeather.icon a = CurrentWeather.icon b /\
  CurrentWeather.location a = CurrentWeather.location b.

(** Two forecast days agree on the fields that are neither dated nor
    drawn: label, wind direction, icon and description. *)
Definition same_day_labels (a b : ForecastDay.t) : Prop :=
  ForecastDay.forecast a = ForecastDay.forecast b /\
  option_map Forecast.direction (ForecastDay.wind a)
    = option_map Forecast.direction (ForecastDay.wind b) /\
  ForecastDay.icon a = ForecastDay.icon b /\
  ForecastDay.description a = ForecastDay.description b.
End Spec.

(** ** Sample payloads and browsers *)

Module Samples.
Import Realtime.
Local Open Scope float_scope.

Definition reading (id : string) (v : float) : station_reading :=
  {| station_id := id; value := v |}.

Definition payload_of (temperature : list station_reading)
  (wind : option (list station_reading)) : Realtime.payload :=
  {| Realtime.items :=
       [ {| Realtime.timestamp := "2025-11-03T12:00:00+08:00";
            Realtime.readings :=
              {| air_temperature := temperature;
                 relative_humidity := [reading "S24" 70.2];
                 wind_speed := wind;
                 rainfall := [reading "S64" 0] |} |} ] |}.

(** Changi reports 30.4 degrees and a wind of 5 m/s. *)
Definition payload_with_wind : Realtime.payload :=
  payload_of [reading "S24" 30.4] (Some [reading "S24" 5]).

(** No station reports a temperature; the wind is 5 m/s as above. *)
Definition payload_no_temperature : Realtime.payload :=
  payload_of [] (Some [reading "S24" 5]).

(** The same payload without the [wind_speed] key. *)
Definition payload_no_temperature_no_wind : Realtime.payload :=
  payload_of [] None.

Definition forecast_payload : Forecast.payload :=
  {| Forecast.items :=
       [ {| Forecast.forecasts :=
              [ {| Forecast.date := "2025-11-04";
                   Forecast.forecast := "Afternoon thundery showers";
                   Forecast.temperature := {| Forecast.high := 33; Forecast.low := 25 |};
                   Forecast.relative_humidity := {| Forecast.high := 95; Forecast.low := 60 |};
                   Forecast.wind := None |} ] |} ] |}.

Definition browser (geo : option geolocation_answer)
  (realtime : fetch_outcome Realtime.payload)
  (forecast : fetch_outcome Forecast.payload)
  (draws : nat -> float) : world :=
  {| geolocation := geo;
     localStorage := [];
     storage_full := false;
     realtime_response := realtime;
     forecast_response := forecast;
     clock := fun n => (1762143300123 + Z.of_nat n)%Z;
     clock_reads := 0;
     random := draws;
     random_draws := 0 |}.

Definition failed_to_fetch {A} : fetch_outcome A :=
  NetworkFailure (TypeError "Failed to fetch").

(** No network, no geolocation; [Math.random] keeps returning 0. *)
Definition offline : world :=
  browser None failed_to_fetch failed_to_fetch (fun _ => 0).

(** The same browser with [Math.random] returning 0.5. *)
Definition offline_half : world :=
  browser None failed_to_fetch failed_to_fetch (fun _ => 0.5).

(** The readings arrive, the forecast endpoint answers 503. *)
Definition forecast_down : world :=
  browser None (Response true 200 (Normal payload_with_wind))
    (Response false 503 (Throw (SyntaxError "Unexpected token")))
    (fun _ => 0).

(** A browser whose clock stands one second before the last time value a
    [Date] can hold (in the year 275760). *)
Definition one_second_left (w : world) : world :=
  {| geolocation := geolocation w;
     localStorage := localStorage w;
     storage_full := storage_full w;
     realtime_response := realtime_response w;
     forecast_response := forecast_response w;
     clock := fun _ => 8639999999999000%Z;
     clock_reads := clock_reads w;
     random := random w;
     random_draws := random_draws w |}.

(** The user refuses the permission prompt. *)
Definition permission_denied : world :=
  browser (Some (GeoError 1 "User denied Geolocation"))
    failed_to_fetch failed_to_fetch (fun _ => 0).
End Samples.

(** ** MAIN APPLICATION CLASS: loading and filtering *)

Module ShoreSquadApp.

(** A cleanup event as [DataManager] stores it; [date] is an ISO string. *)
Record CleanupEvent : Type := {
  id : string;
  title : string;
  date : string;
  location : Browser.location;
  participants : float;
  maxParticipants : float;
  organizer : string;
  description : string
}.

(** The fields of the application object that loading and filtering touch;
    [activeFilters] is a [Set] of filter tokens. *)
Record t : Type := {
  userLocation : option Browser.location;
  weatherData : option WeatherData.t;
  cleanupEvents : list CleanupEvent;
  activeFilters : list string
}.

Definition set_userLocation (app : t) (value : Browser.location) : t :=
  {| userLocation := Some value;
     weatherData := weatherData app;
     cleanupEvents := cleanupEvents app;
     activeFilters := activeFilters app |}.

Definition set_weatherData (app : t) (value : WeatherData.t) : t :=
  {| userLocation := userLocation app;
     weatherData := Some value;
     cleanupEvents := cleanupEvents app;
     activeFilters := activeFilters app |}.

(** Load user location *)
Definition loadUserLocation (app : t) : M t :=
  mtry (position <~ GeolocationService.getCurrentPosition ;;
        ret (set_userLocation app position))
       (fun error => ret (set_userLocation app CONFIG.DEFAULT_LOCATION)).

(** Load weather data from Singapore NEA *)
Definition loadWeatherData (app : t) : M t :=
  mtry (data <~ WeatherService.getCurrentWeather ;;
        ret (set_weatherData app data))
       (fun error =>
          data <~ WeatherService.getFallbackWeatherData ;;
          ret (set_weatherData app data)).

(** The two loading steps of [init], in order. *)
Definition loadLocationAndWeather (app : t) : M t :=
  app1 <~ loadUserLocation app ;;
  loadWeatherData app1.

(** [set.has(token)] *)
Definition has (set : list string) (token : string) : bool :=
  existsb (String.eqb token) set.

Section Dates.
(** The platform's reading of a date string, [new Date(string)]: its time
    value, or [None] for an Invalid Date; and the offset of local time from
    UTC, in milliseconds, at a given instant. *)
Variable Date_parse : string -> option Z.
Variable LocalTZA : Z -> Z.

Definition local_day (t : Z) : Z := ((t + LocalTZA t) / 86400000)%Z.

(** [date.getDay()]: 0 is Sunday; 1 January 1970 was a Thursday.  [None]
    stands for the NaN of an Invalid Date. *)
Definition getDay (date : option Z) : option Z :=
  match date with
  | Some t => Some ((local_day t + 4) mod 7)%Z
  | None => None
  end.

Definition weekday_name (day : Z) : string :=
  nth (Z.to_nat day) ["Sun"; "Mon"; "Tue"; "Wed"; "Thu"; "Fri"; "Sat"] "".

Definition month_name (month : Z) : string :=
  nth (Z.to_nat (month - 1))
    ["Jan"; "Feb"; "Mar"; "Apr"; "May"; "Jun"; "Jul"; "Aug"; "Sep"; "Oct"; "Nov"; "Dec"] "".

(** [n >= 0] in decimal, with at least [width] digits. *)
Definition pad_at_least (width : nat) (n : Z) : string :=
  let s := Str.of_Z n in
  String.concat "" (repeat "0" (width - String.length s)) ++ s.

(** [date.toDateString()], e.g. "Mon Nov 03 2025", in local time. *)
Definition toDateString (date : option Z) : string :=
  match date with
  | Some t =>
      let '(y, m, d) := civil_from_days (local_day t) in
      weekday_name ((local_day t + 4) mod 7) ++ " " ++ month_name m ++ " " ++
      pad 2 d ++ " " ++
      (if (y <? 0)%Z then "-" ++ pad_at_least 4 (- y) else pad_at_least 4 y)
  | None => "Invalid Date"
  end.

(** The callback of [this.cleanupEvents.filter(...)] in
    [renderFilteredEvents], [now] being the time value of [new Date()]. *)
Definition eventFilter (filters : list string) (now : Z) (event : CleanupEvent) : bool :=
  if has filters "all" then true
  else
    let eventDate := Date_parse (date event) in
    if has filters "today" then
      String.eqb (toDateString eventDate) (toDateString (Some now))
    else if has filters "weekend" then
      match getDay eventDate with
      | Some dayOfWeek => (dayOfWeek =? 0)%Z || (dayOfWeek =? 6)%Z (* Sunday or Saturday *)
      | None => false
      end
    else if has filters "upcoming" then
      match eventDate with
      | Some t => (now <? t)%Z
      | None => false
      end
    else true.

(** [const now = new Date(); const filteredEvents = ...] of
    [renderFilteredEvents]: the events the method goes on to render. *)
Definition filteredEvents (app : t) : M (list CleanupEvent) :=
  now <~ Date_now ;;
  ret (filter (eventFilter (activeFilters app) now) (cleanupEvents app)).

(** The state update of [handleFilterChange],
    [this.activeFilters = new Set([filter])]: the chosen token replaces the
    active set. *)
Definition handleFilterChange (app : t) (filter : string) : t :=
  {| userLocation := userLocation app;
     weatherData := weatherData app;
     cleanupEvents := cleanupEvents app;
     activeFilters := [filter] |}.
End Dates.

End ShoreSquadApp.

(** ** Vocabulary of the further statements *)

Module Frame.
(** What a computation may leave behind in a browser that only read the
    clock and drew random numbers: everything as before, the two counters
    possibly advanced. *)
Definition only_reads_oracles (w w' : world) : Prop :=
  geolocation w' = geolocation w /\
  localStorage w' = localStorage w /\
  storage_full w' = storage_full w /\
  realtime_response w' = realtime_response w /\
  forecast_response w' = forecast_response w /\
  clock w' = clock w /\
  random w' = random w /\
  (clock_reads w <= clock_reads w')%nat /\
  (random_draws w <= random_draws w')%nat.

(** A computation that, however it ends, has only read the oracles. *)
Definition oracle_only {A} (c : M A) : Prop :=
  forall w, only_reads_oracles w (snd (c w)).

(** Threshold [a] is passed by every number that passes threshold [b]
    (NaN passes neither). *)
Definition below (a b : float) : Prop :=
  forall x : float, gt x b = true -> gt x a = true.

(** The next [k] readings of the clock are time values, and leave room for
    the three days the fallback forecast adds. *)
Definition readings_in_range (k : nat) (w : world) : Prop :=
  forall n, (clock_reads w <= n < clock_reads w + k)%nat ->
            (-8640000000000000 <= clock w n /\
             clock w n + 3 * 86400000 <= 8640000000000000)%Z.

(** The next five readings of the clock (one for the fallback record, four
    for the fallback days) are so: every date the fallback path renders is
    then within the range of [Date], where [toISOString] does not throw. *)
Definition dates_in_range (w : world) : Prop := readings_in_range 5 w.
End Frame.

(** What is asked of the engine's [Math] functions. *)
Module Engine.
Local Open Scope float_scope.

(** The special values ECMAScript prescribes, as far as the distance needs
    them: [Math.sin(+0)] is [+0] and [Math.sin(NaN)] is NaN;
    [Math.atan2(NaN, x)] is NaN and [Math.atan2(+0, 1)] is [+0]. *)
Definition ecma_special_values
  (Math_sin : float -> float) (Math_atan2 : float -> float -> float) : Prop :=
  Math_sin 0 = 0 /\ Math_sin nan = nan /\
  (forall x, Math_atan2 nan x = nan) /\ Math_atan2 0 1 = 0.

(** The sine is odd, on doubles: [Math.sin(-x)] is [-Math.sin(x)]. *)
Definition odd (Math_sin : float -> float) : Prop :=
  forall x, Math_sin (- x) = - Math_sin x.

(** The cosine of a finite number is a number within [-1, 1]. *)
Definition within_unit (Math_cos : float -> float) : Prop :=
  forall x, Float64.finite x = true -> (abs (Math_cos x) <=? 1) = true.
End Engine.

(** Further sample data. *)
Module MoreSamples.
Local Open Scope float_scope.

(** The browser reports a position, the two endpoints answer. *)
Definition located : world :=
  Samples.browser (Some (GeoPosition 1.3521 103.8198 25))
    (Response true 200 (Normal Samples.payload_no_temperature_no_wind))
    (Response true 200 (Normal Samples.forecast_payload))
    (fun _ => 0).

Definition event (name when : string) : ShoreSquadApp.CleanupEvent :=
  {| ShoreSquadApp.id := name;
     ShoreSquadApp.title := name;
     ShoreSquadApp.date := when;
     ShoreSquadApp.location := CONFIG.DEFAULT_LOCATION;
     ShoreSquadApp.participants := 12;
     ShoreSquadApp.maxParticipants := 25;
     ShoreSquadApp.organizer := "EcoWarriors Squad";
     ShoreSquadApp.description := "" |}.

Definition app_with (filters : list string) : ShoreSquadApp.t :=
  {| ShoreSquadApp.userLocation := None;
     ShoreSquadApp.weatherData := None;
     ShoreSquadApp.cleanupEvents := [event "past" "1000"; event "next" "9999999999999"];
     ShoreSquadApp.activeFilters := filters |}.

(** A toy engine, for the examples only: the first-order approximations
    [sin x = x], [cos x = 1] and [atan2 (y, x) = y / x], with NaN where
    ECMAScript prescribes it. *)
Definition toy_sin (x : float) : float := x.

Definition toy_cos (x : float) : float := if Float64.finite x then 1 else nan.

Definition toy_atan2 (y x : float) : float := y / x.

(** A toy reading of date strings, for the examples only: a string of
    decimal digits is taken as a time value. *)
Definition parse_digits (s : string) : option Z :=
  match NilEmpty.uint_of_string s with
  | Some u => Some (Z.of_uint u)
  | None => None
  end.
End MoreSamples.

(** * Properties *)

Import Realtime WeatherService Spec Frame.

(** ** Sanity checks of the platform functions *)

Example Math_round_samples :
  map Math_round [2.5; 2.4; -2.5; -2.6; 0.49999999999999994; 18.000000000000004; 1e300]%float
  = [3; 2; -2; -3; 0; 18; 1e300]%float.
Proof. vm_compute. reflexivity. Qed.

Example toISOString_samples :
  map toISOString [0; 1762143300123; -1]%Z
  = ["1970-01-01T00:00:00.000Z"; "2025-11-03T04:15:00.123Z"; "1969-12-31T23:59:59.999Z"].
Proof. vm_compute. reflexivity. Qed.

Example toISOString_date_samples :
  map toISOString_date [1762143300123; 8640000000000000; 8640000000000001]%Z
  = [Normal "2025-11-03"; Normal "+275760-09-13"; Throw (RangeError "Invalid time value")].
Proof. vm_compute. reflexivity. Qed.

Example getForecastIcon_samples :
  map getForecastIcon ["Partly Cloudy (Day)"; "Afternoon thundery showers"; "Fair & Warm"]
  = ["☁️"; "🌧️"; "☀️"].
Proof. vm_compute. reflexivity. Qed.

(** ** Sequencing *)

Lemma mbind_Normal {A B} (c : M A) (k : A -> M B) w a w' :
  c w = (Normal a, w') -> mbind c k w = k a w'.
Proof. intros H. unfold mbind. now rewrite H. Qed.

Lemma mbind_Throw {A B} (c : M A) (k : A -> M B) w e w' :
  c w = (Throw e, w') -> mbind c k w = (Throw e, w').
Proof. intros H. unfold mbind. now rewrite H. Qed.

Lemma mtry_Normal {A} (body : M A) handler w a w' :
  body w = (Normal a, w') -> mtry body handler w = (Normal a, w').
Proof. intros H. unfold mtry. now rewrite H. Qed.

Lemma mtry_Throw {A} (body : M A) handler w e w' :
  body w = (Throw e, w') -> mtry body handler w = handler e w'.
Proof. intros H. unfold mtry. now rewrite H. Qed.

(** ** Arithmetic on doubles *)

(** What the distance calculation needs of IEEE 754 arithmetic, from the
    specification of the primitive operations. *)

Import Float64.

Section FloatFacts.
Local Open Scope float_scope.

Lemma float_of_SF (x : float) (s : spec_float) :
  Prim2SF x = s -> x = SF2Prim s.
Proof. intros <-. symmetry. apply SF2Prim_Prim2SF. Qed.

Lemma SFopp_involutive (s : spec_float) : SFopp (SFopp s) = s.
Proof. destruct s as [b | b | | b m e]; cbn; now rewrite ?negb_involutive. Qed.

Lemma opp_involutive (x : float) : - - x = x.
Proof. apply Prim2SF_inj. now rewrite !opp_spec, SFopp_involutive. Qed.

Lemma binary_round_aux_opp (s : bool) (m e : Z) (l : SpecFloat.location) :
  binary_round_aux prec emax (negb s) m e l = SFopp (binary_round_aux prec emax s m e l).
Proof.
  unfold binary_round_aux.
  destruct (shr_fexp prec emax m e l) as [mrs' e'].
  destruct (shr_fexp prec emax _ e' loc_Exact) as [mrs'' e''].
  destruct (shr_m mrs''); [reflexivity | | reflexivity].
  now destruct (e'' <=? emax - prec)%Z.
Qed.

Lemma SFmul_opp_l (x y : spec_float) :
  SFmul prec emax (SFopp x) y = SFopp (SFmul prec emax x y).
Proof.
  destruct x as [sx | sx | | sx mx ex], y as [sy | sy | | sy my ey]; cbn [SFopp SFmul];
    try reflexivity; try (now destruct sx, sy).
  rewrite <- binary_round_aux_opp. f_equal. now destruct sx, sy.
Qed.

Lemma SFmul_comm (x y : spec_float) : SFmul prec emax x y = SFmul prec emax y x.
Proof.
  destruct x as [sx | sx | | sx mx ex], y as [sy | sy | | sy my ey]; cbn [SFmul];
    try reflexivity; try (now rewrite xorb_comm).
  now rewrite xorb_comm, Pos.mul_comm, Z.add_comm.
Qed.

Lemma mul_comm (x y : float) : x * y = y * x.
Proof. apply Prim2SF_inj. rewrite !mul_spec. apply SFmul_comm. Qed.

Lemma mul_opp_l (x y : float) : (- x) * y = - (x * y).
Proof. apply Prim2SF_inj. rewrite opp_spec, !mul_spec, opp_spec. apply SFmul_opp_l. Qed.

Lemma mul_opp_r (x y : float) : x * (- y) = - (x * y).
Proof. now rewrite mul_comm, mul_opp_l, (mul_comm y). Qed.

Lemma mul_opp_opp (x y : float) : (- x) * (- y) = x * y.
Proof. now rewrite mul_opp_l, mul_opp_r, opp_involutive. Qed.

Lemma SFdiv_opp_l (x y : spec_float) :
  SFdiv prec emax (SFopp x) y = SFopp (SFdiv prec emax x y).
Proof.
  destruct x as [sx | sx | | sx mx ex], y as [sy | sy | | sy my ey]; cbn [SFopp SFdiv];
    try reflexivity; try (now destruct sx, sy).
  destruct (SFdiv_core_binary prec emax (Z.pos mx) ex (Z.pos my) ey) as [[mz ez] lz].
  rewrite <- binary_round_aux_opp. f_equal. now destruct sx, sy.
Qed.

Lemma div_opp_l (x y : float) : (- x) / y = - (x / y).
Proof. apply Prim2SF_inj. rewrite opp_spec, !div_spec, opp_spec. apply SFdiv_opp_l. Qed.

Lemma binary_normalize_opp (m e : Z) :
  m <> 0%Z ->
  binary_normalize prec emax (- m) e false = SFopp (binary_normalize prec emax m e false).
Proof.
  destruct m as [| p | p]; [easy | |]; intros _; cbn [Z.opp binary_normalize]; unfold binary_round;
    destruct (shl_align p e _) as [mz ez].
  - apply (binary_round_aux_opp false).
  - rewrite <- (binary_round_aux_opp true). reflexivity.
Qed.

(** Swapping the operands of a subtraction negates the result, except
    that equal operands give [+0] both ways. *)
Lemma SFsub_swap (x y : spec_float) :
  SFsub prec emax y x = SFopp (SFsub prec emax x y) \/
  (SFsub prec emax x y = S754_zero false /\ SFsub prec emax y x = S754_zero false).
Proof.
  destruct x as [sx | sx | | sx mx ex], y as [sy | sy | | sy my ey]; cbn [SFsub SFopp];
    try (left; reflexivity);
    try (destruct sx, sy; cbn; (left; reflexivity) || (right; split; reflexivity)).
  rewrite (Z.min_comm ey ex).
  set (a := cond_Zopp sx (Z.pos (fst (shl_align mx ex (Z.min ex ey))))).
  set (b := cond_Zopp sy (Z.pos (fst (shl_align my ey (Z.min ex ey))))).
  destruct (Z.eq_dec (a - b) 0) as [E | N].
  - right. replace (b - a)%Z with 0%Z by lia. rewrite E. split; reflexivity.
  - left. replace (b - a)%Z with (- (a - b))%Z by lia. now apply binary_normalize_opp.
Qed.

Lemma sub_swap (x y : float) :
  y - x = - (x - y) \/ (x - y = 0 /\ y - x = 0).
Proof.
  destruct (SFsub_swap (Prim2SF x) (Prim2SF y)) as [H | [H1 H2]].
  - left. apply Prim2SF_inj. now rewrite opp_spec, !sub_spec.
  - right. split; apply Prim2SF_inj; rewrite sub_spec; assumption.
Qed.

Lemma sub_diag (x : float) : finite x = true -> x - x = 0.
Proof.
  unfold finite. intros H. apply Prim2SF_inj. rewrite sub_spec.
  destruct (Prim2SF x) as [s | s | | s m e]; try discriminate; cbn [SF64sub SFsub].
  - unfold SF64sub. cbn. now destruct s.
  - unfold SF64sub. cbn [SFsub]. rewrite Z.sub_diag. reflexivity.
Qed.

End FloatFacts.

Section Rounding.
Local Open Scope Z_scope.

Lemma digits2_pos_bounds (p : positive) :
  2 ^ (Z.pos (digits2_pos p) - 1) <= Z.pos p < 2 ^ Z.pos (digits2_pos p).
Proof.
  induction p as [p IH | p IH |]; cbn [digits2_pos]; [| | cbn; lia].
  - rewrite Pos2Z.inj_succ.
    replace (Z.succ (Z.pos (digits2_pos p)) - 1) with (Z.succ (Z.pos (digits2_pos p) - 1)) by lia.
    rewrite !Z.pow_succ_r by lia. lia.
  - rewrite Pos2Z.inj_succ.
    replace (Z.succ (Z.pos (digits2_pos p)) - 1) with (Z.succ (Z.pos (digits2_pos p) - 1)) by lia.
    rewrite !Z.pow_succ_r by lia. lia.
Qed.

Lemma Zdigits2_le (n K : Z) : 0 <= n < 2 ^ K -> 0 <= K -> 0 <= Zdigits2 n <= K.
Proof.
  intros [Hn Hlt] HK. destruct n as [| p | p]; cbn [Zdigits2]; [lia | | lia].
  split; [lia |].
  destruct (Z_le_gt_dec (Z.pos (digits2_pos p)) K) as [H | H]; [exact H |].
  pose proof (digits2_pos_bounds p) as [Hlo _].
  assert (2 ^ K <= 2 ^ (Z.pos (digits2_pos p) - 1)) by (apply Z.pow_le_mono_r; lia).
  lia.
Qed.

Lemma shr_1_bounds (mrs : shr_record) :
  0 <= shr_m mrs -> 0 <= shr_m (shr_1 mrs) <= shr_m mrs.
Proof.
  destruct mrs as [m r s]. cbn [shr_m].
  destruct m as [| [p | p |] | p]; cbn; lia.
Qed.

Lemma iter_shr_1_bounds (p : positive) :
  forall mrs, 0 <= shr_m mrs -> 0 <= shr_m (iter_pos shr_1 p mrs) <= shr_m mrs.
Proof.
  induction p as [p IH | p IH |]; intros mrs H; cbn [iter_pos].
  - pose proof (shr_1_bounds mrs H) as H1.
    pose proof (IH _ (proj1 H1)) as H2.
    pose proof (IH _ (proj1 H2)) as H3. lia.
  - pose proof (IH _ H) as H2.
    pose proof (IH _ (proj1 H2)) as H3. lia.
  - apply shr_1_bounds, H.
Qed.

Lemma shr_m_of_loc (m : Z) (l : SpecFloat.location) : shr_m (shr_record_of_loc m l) = m.
Proof. destruct l as [| []]; reflexivity. Qed.

Lemma shr_fexp_bounds (m e : Z) (l : SpecFloat.location) (K : Z) :
  0 <= m < 2 ^ K -> 0 <= K ->
  0 <= shr_m (fst (shr_fexp prec emax m e l)) <= m /\
  snd (shr_fexp prec emax m e l) <= Z.max (Z.max e (K + e - 53)) (-1074).
Proof.
  intros Hm HK. pose proof (Zdigits2_le m K Hm HK) as Hd.
  unfold shr_fexp, shr.
  assert (Hf : fexp prec emax (Zdigits2 m + e) <= Z.max (K + e - 53) (-1074)).
  { unfold fexp, emin. change prec with 53. change emax with 1024. lia. }
  destruct (fexp prec emax (Zdigits2 m + e) - e) as [| n | n] eqn:E; cbn [fst snd];
    rewrite ?shr_m_of_loc; try lia.
  pose proof (iter_shr_1_bounds n (shr_record_of_loc m l)) as H.
  rewrite shr_m_of_loc in H. specialize (H (proj1 Hm)). lia.
Qed.

Lemma round_nearest_even_bounds (m : Z) (l : SpecFloat.location) :
  m <= round_nearest_even m l <= m + 1.
Proof. destruct l as [| []]; cbn; try lia. destruct (Z.even m); lia. Qed.

(** Rounding a non-negative mantissa below [2 ^ K] cannot overflow when
    the exponent is small enough; the exponent grows by at most [K]. *)
Lemma binary_round_aux_bounded (s : bool) (m e : Z) (l : SpecFloat.location) (K : Z) :
  0 <= m < 2 ^ K -> 0 <= K ->
  Z.max (Z.max e (K + e - 53)) (-1074) + K <= 971 ->
  binary_round_aux prec emax s m e l = S754_zero s \/
  exists m' e', binary_round_aux prec emax s m e l = S754_finite s m' e' /\
                e' <= Z.max (Z.max e (K + e - 53)) (-1074) + K.
Proof.
  intros Hm HK HE. unfold binary_round_aux.
  pose proof (shr_fexp_bounds m e l K Hm HK) as [Hm1 He1].
  destruct (shr_fexp prec emax m e l) as [mrs' e']. cbn [fst snd] in Hm1, He1.
  pose proof (round_nearest_even_bounds (shr_m mrs') (loc_of_shr_record mrs')) as Hr.
  set (mr := round_nearest_even (shr_m mrs') (loc_of_shr_record mrs')) in *.
  assert (Hmr : 0 <= mr < 2 ^ (K + 1)).
  { rewrite Z.pow_add_r by lia. change (2 ^ 1) with 2. lia. }
  pose proof (shr_fexp_bounds mr e' loc_Exact (K + 1) Hmr ltac:(lia)) as [Hm2 He2].
  destruct (shr_fexp prec emax mr e' loc_Exact) as [mrs'' e'']. cbn [fst snd] in Hm2, He2.
  destruct (shr_m mrs'') as [| p | p]; [now left | | lia].
  right. replace (e'' <=? emax - prec) with true.
  - exists p, e''. split; [reflexivity | lia].
  - symmetry. apply Z.leb_le. change emax with 1024. change prec with 53. lia.
Qed.

End Rounding.

Section Small.
Local Open Scope float_scope.

Lemma small_finite (x : float) (E : Z) : small x E -> finite x = true.
Proof. unfold small, finite. now destruct (Prim2SF x). Qed.

Lemma small_weaken (x : float) (E E' : Z) : small x E -> (E <= E')%Z -> small x E'.
Proof. unfold small. destruct (Prim2SF x); auto. lia. Qed.

Lemma small_of_abs_le (x b : float) (mb : positive) (eb : Z) :
  Prim2SF b = S754_finite false mb eb ->
  (abs x <=? b) = true -> small x eb.
Proof.
  intros Hb. rewrite leb_spec, abs_spec, Hb. unfold small, SFleb, SFcompare.
  destruct (Prim2SF x) as [s | s | | s m e]; cbn [SFabs]; try discriminate; [easy |].
  destruct (Z.compare_spec e eb); try discriminate; lia.
Qed.

Lemma mantissa_bound (x : float) (s : bool) (m : positive) (e : Z) :
  Prim2SF x = S754_finite s m e -> (0 <= Z.pos m < 2 ^ 53)%Z.
Proof.
  intros H. pose proof (Prim2SF_valid x) as V. rewrite H in V.
  cbn [SpecFloat.valid_binary] in V. unfold bounded, canonical_mantissa in V.
  apply andb_prop in V as [V _]. apply Z.eqb_eq in V.
  pose proof (digits2_pos_bounds m) as [_ Hhi].
  assert (Hd : (Z.pos (digits2_pos m) <= 53)%Z).
  { unfold fexp, emin in V. change prec with 53%Z in V. lia. }
  split; [lia |].
  assert ((2 ^ Z.pos (digits2_pos m) <= 2 ^ 53)%Z) by (apply Z.pow_le_mono_r; lia).
  lia.
Qed.

Lemma small_mul (x y : float) (E1 E2 : Z) :
  small x E1 -> small y E2 ->
  (Z.max (E1 + E2 + 53) (-1074) + 106 <= 971)%Z ->
  small (x * y) (Z.max (E1 + E2 + 53) (-1074) + 106).
Proof.
  unfold small. rewrite mul_spec. unfold SF64mul.
  destruct (Prim2SF x) as [sx | sx | | sx mx ex] eqn:Hx; try easy;
    destruct (Prim2SF y) as [sy | sy | | sy my ey] eqn:Hy; try easy; cbn [SFmul]; try easy.
  intros H1 H2 HE.
  pose proof (mantissa_bound x _ _ _ Hx) as Bx.
  pose proof (mantissa_bound y _ _ _ Hy) as By.
  assert (Hm : (0 <= Z.pos (mx * my) < 2 ^ 106)%Z).
  { rewrite Pos2Z.inj_mul. change (2 ^ 106)%Z with (2 ^ 53 * 2 ^ 53)%Z. nia. }
  destruct (binary_round_aux_bounded (xorb sx sy) (Z.pos (mx * my)) (ex + ey) loc_Exact 106 Hm)
    as [-> | (m' & e' & -> & He)]; [lia | lia | easy | lia].
Qed.


Lemma small_div (x y : float) (E1 : Z) (sy : bool) (my : positive) (ey : Z) :
  small x E1 -> Prim2SF y = S754_finite sy my ey ->
  (Z.max (E1 - ey + 106) (-1074) + 159 <= 971)%Z ->
  small (x / y) (Z.max (E1 - ey + 106) (-1074) + 159).
Proof.
  unfold small. rewrite div_spec. unfold SF64div. intros Hx Hy HE. rewrite Hy.
  destruct (Prim2SF x) as [sx | sx | | sx mx ex] eqn:Ex; try easy; cbn [SFdiv]; try easy.
  pose proof (mantissa_bound x _ _ _ Ex) as Bx.
  pose proof (mantissa_bound y _ _ _ Hy) as By.
  unfold SFdiv_core_binary.
  set (d1 := Zdigits2 (Z.pos mx)). set (d2 := Zdigits2 (Z.pos my)).
  assert (Hd1 : (0 <= d1)%Z) by (unfold d1; cbn; lia).
  assert (Hd2 : (0 <= d2 <= 53)%Z) by (apply Zdigits2_le; lia).
  set (e' := Z.min (fexp prec emax (d1 + ex - (d2 + ey))) (ex - ey)).
  assert (He' : (e' <= ex - ey /\ ex - ey - e' <= 106)%Z).
  { unfold e', fexp, emin. change prec with 53%Z. change emax with 1024%Z. lia. }
  set (m' := match (ex - ey - e')%Z with
             | Z.pos _ => Z.shiftl (Z.pos mx) (ex - ey - e')
             | 0%Z => Z.pos mx
             | Z.neg _ => 0%Z
             end).
  assert (Hm' : (0 <= m' < 2 ^ 159)%Z).
  { unfold m'. destruct (ex - ey - e')%Z as [| p | p] eqn:Es; [| | lia].
    - assert ((2 ^ 53 <= 2 ^ 159)%Z) by (apply Z.pow_le_mono_r; lia). lia.
    - rewrite Z.shiftl_mul_pow2 by lia.
      assert ((2 ^ Z.pos p <= 2 ^ 106)%Z) by (apply Z.pow_le_mono_r; lia).
      assert ((0 < 2 ^ Z.pos p)%Z) by (apply Z.pow_pos_nonneg; lia).
      change (2 ^ 159)%Z with (2 ^ 53 * 2 ^ 106)%Z. nia. }
  pose proof (Z_div_mod m' (Z.pos my) ltac:(lia)) as Hdm.
  destruct (Z.div_eucl m' (Z.pos my)) as [q r].
  assert (Hq : (0 <= q < 2 ^ 159)%Z) by nia.
  destruct (binary_round_aux_bounded (xorb sx sy) q e' (new_location (Z.pos my) r) 159 Hq)
    as [-> | (mq & eq & -> & He)]; [lia | lia | easy | lia].
Qed.

End Small.

Section SpecialValues.
Local Open Scope float_scope.

Lemma is_nan_SF (x : float) : Prim2SF x = S754_nan -> x = nan.
Proof. intros H. apply Prim2SF_inj. exact H. Qed.

Lemma add_nan_l (x : float) : nan + x = nan.
Proof. apply is_nan_SF. rewrite add_spec. reflexivity. Qed.

Lemma add_nan_r (x : float) : x + nan = nan.
Proof. apply is_nan_SF. rewrite add_spec. change (Prim2SF nan) with S754_nan.
  unfold SF64add. now destruct (Prim2SF x). Qed.

Lemma mul_nan_r (x : float) : x * nan = nan.
Proof. apply is_nan_SF. rewrite mul_spec. change (Prim2SF nan) with S754_nan.
  unfold SF64mul. now destruct (Prim2SF x). Qed.

Lemma sub_diag_nan (x : float) : finite x = false -> x - x = nan.
Proof.
  unfold finite. intros H. apply is_nan_SF. rewrite sub_spec. unfold SF64sub.
  destruct (Prim2SF x) as [s | s | | s m e]; try discriminate; [now destruct s | reflexivity].
Qed.

Lemma zero_plus_small_times_zero (p : float) (E : Z) : small p E -> 0 + p * 0 * 0 = 0.
Proof.
  unfold small. intros H. apply Prim2SF_inj. rewrite add_spec, !mul_spec.
  change (Prim2SF 0) with (S754_zero false). unfold SF64add, SF64mul.
  destruct (Prim2SF p) as [s | s | | s m e]; try easy; now destruct s.
Qed.

End SpecialValues.

(** ** Distance calculation *)

Import GeolocationService.

Section Swap.
Local Open Scope float_scope.
Variables Math_sin Math_cos : float -> float.
Variable Math_atan2 : float -> float -> float.
Hypothesis sin_odd : Engine.odd Math_sin.

Local Abbreviation half_angle_sine d := (Math_sin (d * Math_PI / 180 / 2)) (only parsing).

Lemma half_angle_sine_opp (d : float) : half_angle_sine (- d) = - half_angle_sine d.
Proof. now rewrite mul_opp_l, !div_opp_l, sin_odd. Qed.

Lemma half_angle_swap (x y : float) :
  half_angle_sine (y - x) = - half_angle_sine (x - y) \/
  half_angle_sine (y - x) = half_angle_sine (x - y).
Proof.
  destruct (sub_swap x y) as [-> | [-> ->]]; [left | right; reflexivity].
  apply half_angle_sine_opp.
Qed.

Lemma calculateDistance_swap lat1 lng1 lat2 lng2 :
  calculateDistance Math_sin Math_cos Math_atan2 lat1 lng1 lat2 lng2
  = calculateDistance Math_sin Math_cos Math_atan2 lat2 lng2 lat1 lng1.
Proof.
  unfold calculateDistance. cbv zeta.
  rewrite (mul_comm (Math_cos (lat2 * Math_PI / 180))).
  set (cc := Math_cos (lat1 * Math_PI / 180) * Math_cos (lat2 * Math_PI / 180)).
  assert (Hφ : half_angle_sine (lat2 - lat1) * half_angle_sine (lat2 - lat1)
               = half_angle_sine (lat1 - lat2) * half_angle_sine (lat1 - lat2)).
  { destruct (half_angle_swap lat1 lat2) as [-> | ->]; [apply mul_opp_opp | reflexivity]. }
  assert (Hλ : cc * half_angle_sine (lng2 - lng1) * half_angle_sine (lng2 - lng1)
               = cc * half_angle_sine (lng1 - lng2) * half_angle_sine (lng1 - lng2)).
  { destruct (half_angle_swap lng1 lng2) as [-> | ->]; [| reflexivity].
    now rewrite (mul_opp_r cc), mul_opp_opp. }
  now rewrite Hφ, Hλ.
Qed.
End Swap.

Section IdenticalCoordinates.
Local Open Scope float_scope.
Variables Math_sin Math_cos : float -> float.
Variable Math_atan2 : float -> float -> float.
Local Abbreviation calculateDistance := (calculateDistance Math_sin Math_cos Math_atan2).

Lemma radians_finite (lat : float) :
  (abs lat <=? 90) = true -> finite (lat * Math_PI / 180) = true.
Proof.
  intros H.
  assert (Hl : small lat (-46)).
  { apply (small_of_abs_le lat 90 6333186975989760); [reflexivity | exact H]. }
  assert (Hpi : small Math_PI (-51)).
  { apply (small_of_abs_le Math_PI Math_PI 7074237752028440); reflexivity. }
  pose proof (small_mul _ _ _ _ Hl Hpi ltac:(lia)) as Hm.
  eapply small_finite.
  apply (small_div _ 180 _ false 6333186975989760 (-45) Hm); [reflexivity | lia].
Qed.

Lemma calculateDistance_same_point (lat lng : float) :
  Engine.ecma_special_values Math_sin Math_atan2 -> Engine.within_unit Math_cos ->
  (abs lat <=? 90) = true -> finite lng = true ->
  calculateDistance lat lng lat lng = 0.
Proof.
  intros (Hs0 & _ & _ & Ha0) Hcos Hlat Hlng.
  assert (Flat : finite lat = true).
  { eapply small_finite, (small_of_abs_le lat 90 6333186975989760); [reflexivity | exact Hlat]. }
  unfold calculateDistance. cbv zeta.
  rewrite (sub_diag lat Flat), (sub_diag lng Hlng).
  change (0 * Math_PI / 180 / 2) with 0. rewrite Hs0. change (0 * 0) with 0.
  set (c := Math_cos (lat * Math_PI / 180)).
  assert (Hc : small c (-52)).
  { apply (small_of_abs_le c 1 4503599627370496); [reflexivity |].
    apply Hcos, radians_finite, Hlat. }
  pose proof (small_mul _ _ _ _ Hc Hc ltac:(lia)) as Hcc.
  rewrite (zero_plus_small_times_zero _ _ Hcc).
  change (Math_sqrt 0) with 0. change (Math_sqrt (1 - 0)) with 1.
  rewrite Ha0. reflexivity.
Qed.

Lemma calculateDistance_not_finite (lat lng : float) :
  Engine.ecma_special_values Math_sin Math_atan2 ->
  finite lat = false \/ finite lng = false ->
  calculateDistance lat lng lat lng = nan.
Proof.
  intros (_ & Hsn & Han & _) H.
  unfold calculateDistance. cbv zeta.
  assert (Ha : Math_sin ((lat - lat) * Math_PI / 180 / 2) * Math_sin ((lat - lat) * Math_PI / 180 / 2) +
               Math_cos (lat * Math_PI / 180) * Math_cos (lat * Math_PI / 180) *
               Math_sin ((lng - lng) * Math_PI / 180 / 2) * Math_sin ((lng - lng) * Math_PI / 180 / 2)
               = nan).
  { destruct H as [H | H]; rewrite (sub_diag_nan _ H).
    - change (nan * Math_PI / 180 / 2) with nan. rewrite Hsn. change (nan * nan) with nan.
      apply add_nan_l.
    - change (nan * Math_PI / 180 / 2) with nan. rewrite Hsn.
      now rewrite !mul_nan_r, add_nan_r. }
  rewrite Ha. change (Math_sqrt nan) with nan. rewrite Han. reflexivity.
Qed.
End IdenticalCoordinates.

Section OnDoubles.
Local Open Scope float_scope.


Lemma nan_not_zero : nan <> 0.
Proof. intros H. apply (f_equal Prim2SF) in H. discriminate H. Qed.


Lemma toy_engine_conforms :
  Engine.ecma_special_values MoreSamples.toy_sin MoreSamples.toy_atan2 /\
  Engine.odd MoreSamples.toy_sin /\
  Engine.within_unit MoreSamples.toy_cos.
Proof.
  split; [| split].
  - repeat split. intros x. unfold MoreSamples.toy_atan2.
    apply Prim2SF_inj. rewrite div_spec. reflexivity.
  - intros x. reflexivity.
  - intros x H. unfold MoreSamples.toy_cos. now rewrite H.
Qed.


End OnDoubles.

(** ** Location resolver *)

Import GeolocationService.

Lemma getCurrentPosition_rejects_without_geolocation (w : world) :
  geolocation w = None ->
  getCurrentPosition w = (Throw (Error "Geolocation not supported"), w).
Proof. intros H. unfold getCurrentPosition. now rewrite H. Qed.

Lemma getCurrentPosition_default_on_error (w : world) code message :
  geolocation w = Some (GeoError code message) ->
  getCurrentPosition w = (Normal CONFIG.DEFAULT_LOCATION, w).
Proof. intros H. unfold getCurrentPosition. now rewrite H. Qed.

(** On success the position is returned, and persisted unless the storage
    refuses the write. *)
Lemma getCurrentPosition_success (w : world) latitude longitude acc :
  geolocation w = Some (GeoPosition latitude longitude acc) ->
  let location :=
    {| lat := latitude; lng := longitude; accuracy := Some acc; name := None |} in
  getCurrentPosition w
  = (Normal location,
     if storage_full w then w
     else store CONFIG.STORAGE_KEYS.USER_LOCATION location w).
Proof.
  intros H location. unfold getCurrentPosition. rewrite H.
  unfold Utils.setLocalStorage, mbind, mtry, localStorage_setItem.
  destruct (storage_full w); reflexivity.
Qed.

Lemma getCurrentPosition_persists (w : world) latitude longitude acc :
  geolocation w = Some (GeoPosition latitude longitude acc) ->
  storage_full w = false ->
  localStorage_getItem CONFIG.STORAGE_KEYS.USER_LOCATION
    (localStorage (snd (getCurrentPosition w)))
  = Some (JSON.JObject [("lat", JSON.of_number latitude);
                        ("lng", JSON.of_number longitude);
                        ("accuracy", JSON.of_number acc)]).
Proof.
  intros H Hfull. rewrite (getCurrentPosition_success w _ _ _ H), Hfull.
  reflexivity.
Qed.

(** A number survives [JSON.stringify] and [JSON.parse] unless it is [-0],
    NaN or an infinity. *)
Lemma of_number_finite (x : float) :
  Float64.finite x = true -> Prim2SF x <> S754_zero true ->
  JSON.of_number x = JSON.JNumber x.
Proof.
  unfold Float64.finite, JSON.of_number. intros Hf Hz.
  destruct (Prim2SF x) as [s | s | | s m e] eqn:E; try discriminate; [| reflexivity].
  destruct s; [now destruct Hz |].
  f_equal. symmetry. apply Prim2SF_inj. exact E.
Qed.

(** C7, as the code has it.  When the browser calls the error callback
    (permission denied, position unavailable, or the timeout of 10 s), the
    promise of [getCurrentPosition] resolves with the hardcoded default
    coordinate (lat 1.381497, lng 103.955574) and nothing else changes;
    when the geolocation capability is absent the promise is rejected with
    [Error "Geolocation not supported"]. *)
Theorem getCurrentPosition_settlement (w : world) :
  (forall code message,
      geolocation w = Some (GeoError code message) ->
      getCurrentPosition w = (Normal CONFIG.DEFAULT_LOCATION, w)) /\
  (geolocation w = None ->
   getCurrentPosition w = (Throw (Error "Geolocation not supported"), w)) /\
  lat CONFIG.DEFAULT_LOCATION = 1.381497%float /\
  lng CONFIG.DEFAULT_LOCATION = 103.955574%float.
Proof.
  split; [intros code message; apply getCurrentPosition_default_on_error |].
  split; [apply getCurrentPosition_rejects_without_geolocation |].
  split; reflexivity.
Qed.

Lemma getCurrentPosition_settlement_witness :
  getCurrentPosition Samples.permission_denied
  = (Normal CONFIG.DEFAULT_LOCATION, Samples.permission_denied) /\
  getCurrentPosition Samples.offline
  = (Throw (Error "Geolocation not supported"), Samples.offline).
Proof.
  split.
  - apply (proj1 (getCurrentPosition_settlement Samples.permission_denied)
             1%Z "User denied Geolocation").
    reflexivity.
  - apply (proj1 (proj2 (getCurrentPosition_settlement Samples.offline))).
    reflexivity.
Defined.

(** C7, as the claim states it, fails: in a browser without
    [navigator.geolocation] the promise is rejected, it does not resolve
    with the default coordinate. *)
Lemma getCurrentPosition_can_reject :
  geolocation Samples.offline = None /\
  fst (getCurrentPosition Samples.offline) = Throw (Error "Geolocation not supported") /\
  fst (getCurrentPosition Samples.offline) <> Normal CONFIG.DEFAULT_LOCATION.
Proof.
  split; [reflexivity |]. split; [reflexivity |].
  cbn. discriminate.
Qed.

(** ** Condition, description and icon *)

Section Conditions.
Local Open Scope float_scope.

(** C4. [determineCondition] answers "rainy" when rainfall > 5; otherwise
    "humid" when humidity > 80; otherwise "hot" when temperature > 32;
    otherwise "cool" when temperature < 26; otherwise "pleasant": fixed
    thresholds, tried in that order, for every input (NaN and the
    infinities included). *)
Theorem determineCondition_thresholds (temp humidity rainfall : float) :
  (gt rainfall 5 = true ->
   determineCondition temp humidity rainfall = "rainy") /\
  (gt rainfall 5 = false -> gt humidity 80 = true ->
   determineCondition temp humidity rainfall = "humid") /\
  (gt rainfall 5 = false -> gt humidity 80 = false -> gt temp 32 = true ->
   determineCondition temp humidity rainfall = "hot") /\
  (gt rainfall 5 = false -> gt humidity 80 = false -> gt temp 32 = false ->
   lt temp 26 = true ->
   determineCondition temp humidity rainfall = "cool") /\
  (gt rainfall 5 = false -> gt humidity 80 = false -> gt temp 32 = false ->
   lt temp 26 = false ->
   determineCondition temp humidity rainfall = "pleasant").
Proof.
  unfold determineCondition.
  repeat split; intros; repeat match goal with H : _ = _ |- _ => rewrite H; clear H end;
    reflexivity.
Qed.

Lemma determineCondition_thresholds_witness :
  determineCondition 20 85 6 = "rainy" /\
  determineCondition 34 85 0 = "humid" /\
  determineCondition 33 70 0 = "hot" /\
  determineCondition 25 70 0 = "cool" /\
  determineCondition 27 70 0 = "pleasant".
Proof.
  split; [apply (determineCondition_thresholds 20 85 6); reflexivity |].
  split; [apply (determineCondition_thresholds 34 85 0); reflexivity |].
  split; [apply (determineCondition_thresholds 33 70 0); reflexivity |].
  split; [apply (determineCondition_thresholds 25 70 0); reflexivity |].
  apply (determineCondition_thresholds 27 70 0); reflexivity.
Defined.

(** C5, as the code has it.  For temperature 33 and rainfall 0,
    [determineCondition] answers "humid" when humidity > 80 and "hot" for
    every other humidity. *)
Theorem determineCondition_33_dry (humidity : float) :
  determineCondition 33 humidity 0
  = if gt humidity 80 then "humid" else "hot".
Proof.
  unfold determineCondition.
  change (gt 0 5) with false. cbv iota.
  destruct (gt humidity 80); reflexivity.
Qed.

(** C5, as the claim states it, fails: at humidity 85 the answer is "humid". *)
Lemma humid_at_33_degrees_dry :
  determineCondition 33 85 0 = "humid" /\ determineCondition 33 85 0 <> "hot".
Proof. split; [reflexivity | vm_compute; discriminate]. Qed.



End Conditions.

(** ** Fallback data *)

Section Fallback.
Local Open Scope float_scope.

(** The literal of [getFallbackCurrentWeather], stamped with a time. *)
Lemma getFallbackCurrentWeather_eq (w : world) :
  getFallbackCurrentWeather w =
  (Normal {| CurrentWeather.temperature := 29;
             CurrentWeather.humidity := 78;
             CurrentWeather.windSpeed := 12;
             CurrentWeather.rainfall := 0;
             CurrentWeather.condition := "pleasant";
             CurrentWeather.description :=
               "Typical Singapore weather - great for beach cleanup!";
             CurrentWeather.icon := "🌤️";
             CurrentWeather.timestamp := toISOString (clock w (clock_reads w));
             CurrentWeather.location := "Singapore" |},
   tick w).
Proof. reflexivity. Qed.

(** The sample browsers read a clock of November 2025. *)
Lemma sample_dates_in_range (geo : option geolocation_answer)
  (realtime : fetch_outcome Realtime.payload) (forecast : fetch_outcome Forecast.payload)
  (draws : nat -> float) :
  dates_in_range (Samples.browser geo realtime forecast draws).
Proof.
  intros n Hn. unfold Samples.browser in *. cbn [clock clock_reads] in *. lia.
Qed.

Lemma readings_in_range_tick (k : nat) (w : world) :
  readings_in_range (S k) w -> readings_in_range k (tick w).
Proof. intros H n Hn. cbn [tick clock clock_reads] in *. apply H. lia. Qed.

Lemma readings_in_range_fewer (k k' : nat) (w : world) :
  (k' <= k)%nat -> readings_in_range k w -> readings_in_range k' w.
Proof. intros Hk H n Hn. apply H. lia. Qed.

(** A reading with three days to spare can be rendered up to three days
    ahead. *)
Lemma Date_valid_day (now index : Z) :
  (-8640000000000000 <= now)%Z -> (now + 3 * 86400000 <= 8640000000000000)%Z ->
  (0 <= index <= 3)%Z ->
  Date_valid (now + index * 24 * 60 * 60 * 1000) = true.
Proof.
  intros Hlo Hhi Hi. unfold Date_valid.
  apply andb_true_intro. split; apply Z.leb_le; lia.
Qed.

(** One day of the fallback forecast, when its date is within range: it
    reads the clock once. *)
Lemma fallbackForecastDay_labels (day : string) (index : Z) (w : world) :
  Date_valid (clock w (clock_reads w) + index * 24 * 60 * 60 * 1000) = true ->
  exists d w',
    fallbackForecastDay day index w = (Normal d, w') /\
    (ForecastDay.forecast d = "Partly Cloudy" /\
     option_map Forecast.direction (ForecastDay.wind d) = Some "NE" /\
     ForecastDay.icon d = (if (index =? 0)%Z then "🌤️" else "⛅") /\
     ForecastDay.description d = "Good conditions for outdoor activities") /\
    clock w' = clock w /\ clock_reads w' = S (clock_reads w).
Proof.
  intros H. unfold fallbackForecastDay.
  rewrite (mbind_Normal _ _ w _ (tick w) eq_refl).
  assert (E : lift (toISOString_date (clock w (clock_reads w) + index * 24 * 60 * 60 * 1000))
                (tick w)
              = (Normal (split_T_0
                           (toISOString (clock w (clock_reads w) + index * 24 * 60 * 60 * 1000))),
                 tick w)).
  { unfold lift, toISOString_date, Date_toISOString. now rewrite H. }
  rewrite (mbind_Normal _ _ _ _ _ E).
  eexists. eexists. split; [reflexivity |]. cbn. repeat split.
Qed.

(** A day past the range of [Date] throws, before anything is drawn. *)
Lemma fallbackForecastDay_out_of_range (day : string) (index : Z) (w : world) :
  Date_valid (clock w (clock_reads w) + index * 24 * 60 * 60 * 1000) = false ->
  fallbackForecastDay day index w = (Throw (RangeError "Invalid time value"), tick w).
Proof.
  intros H. unfold fallbackForecastDay.
  rewrite (mbind_Normal _ _ w _ (tick w) eq_refl).
  apply mbind_Throw.
  unfold lift, toISOString_date, Date_toISOString. now rewrite H.
Qed.

(** Mapping over the day names does not throw while the dates are within
    range, and two runs differ at most in what the clock and the draws put
    in. *)
Lemma fallback_days_agree (days : list string) :
  forall index w1 w2,
    (0 <= index)%Z -> (index + Z.of_nat (List.length days) <= 4)%Z ->
    readings_in_range (List.length days) w1 ->
    readings_in_range (List.length days) w2 ->
    exists ys1 w1' ys2 w2',
      map_with_index fallbackForecastDay days index w1 = (Normal ys1, w1') /\
      map_with_index fallbackForecastDay days index w2 = (Normal ys2, w2') /\
      Forall2 same_day_labels ys1 ys2 /\
      List.length ys1 = List.length days.
Proof.
  induction days as [| day rest IH]; intros index w1 w2 Hi Hn H1 H2.
  - exists [], w1, [], w2. repeat split; constructor.
  - cbn [List.length] in Hn, H1, H2.
    assert (V1 : Date_valid (clock w1 (clock_reads w1) + index * 24 * 60 * 60 * 1000) = true)
      by (destruct (H1 (clock_reads w1)); [lia |]; apply Date_valid_day; lia).
    assert (V2 : Date_valid (clock w2 (clock_reads w2) + index * 24 * 60 * 60 * 1000) = true)
      by (destruct (H2 (clock_reads w2)); [lia |]; apply Date_valid_day; lia).
    destruct (fallbackForecastDay_labels day index w1 V1)
      as (d1 & u1 & E1 & (F1 & D1 & I1 & T1) & K1 & N1).
    destruct (fallbackForecastDay_labels day index w2 V2)
      as (d2 & u2 & E2 & (F2 & D2 & I2 & T2) & K2 & N2).
    destruct (IH (index + 1)%Z u1 u2) as (ys1 & v1 & ys2 & v2 & R1 & R2 & HF & HL);
      [lia | lia
       | intros n Hr; rewrite K1; apply H1; lia
       | intros n Hr; rewrite K2; apply H2; lia |].
    exists (d1 :: ys1), v1, (d2 :: ys2), v2.
    cbn [map_with_index].
    rewrite (mbind_Normal _ _ _ _ _ E1), (mbind_Normal _ _ _ _ _ E2).
    rewrite (mbind_Normal _ _ _ _ _ R1), (mbind_Normal _ _ _ _ _ R2).
    repeat split.
    + constructor; [| exact HF].
      unfold same_day_labels. rewrite F1, F2, D1, D2, I1, I2, T1, T2. repeat split.
    + cbn. now rewrite HL.
Qed.

(** The fallback forecast comes back, four days long, when the four
    readings it takes are within range. *)
Lemma getFallbackForecastData_returns (w : world) :
  readings_in_range 4 w ->
  exists days w', getFallbackForecastData w = (Normal days, w') /\ List.length days = 4%nat.
Proof.
  intros H.
  destruct (fallback_days_agree ["Today"; "Tomorrow"; "Day 3"; "Day 4"] 0%Z w w)
    as (ys & v & _ & _ & R & _ & _ & HL); try exact H; [lia | cbn; lia |].
  exists ys, v. split; [exact R | exact HL].
Qed.

(** The fallback bundle comes back when its dates are within range, its
    current record being the literal stamped with the first reading of the
    clock. *)
Lemma getFallbackWeatherData_returns (w : world) :
  dates_in_range w ->
  exists days w',
    getFallbackWeatherData w
    = (Normal {| WeatherData.current :=
                   {| CurrentWeather.temperature := 29;
                      CurrentWeather.humidity := 78;
                      CurrentWeather.windSpeed := 12;
                      CurrentWeather.rainfall := 0;
                      CurrentWeather.condition := "pleasant";
                      CurrentWeather.description :=
                        "Typical Singapore weather - great for beach cleanup!";
                      CurrentWeather.icon := "🌤️";
                      CurrentWeather.timestamp := toISOString (clock w (clock_reads w));
                      CurrentWeather.location := "Singapore" |};
                 WeatherData.forecast := days |}, w') /\
    List.length days = 4%nat.
Proof.
  intros H.
  destruct (getFallbackForecastData_returns (tick w) (readings_in_range_tick 4 w H))
    as (ys & v & R & HL).
  exists ys, v. split; [| exact HL].
  unfold getFallbackWeatherData.
  rewrite (mbind_Normal _ _ _ _ _ (getFallbackCurrentWeather_eq w)).
  rewrite (mbind_Normal _ _ _ _ _ R). reflexivity.
Qed.

(** C3, as the code has it.  Whatever the random draws, and whatever the
    clock reads as long as the dates it gives are within the range of
    [Date] (the readings are time values at least three days before its
    end), the fallback path returns a bundle, and any two bundles agree on
    the current record except for its timestamp, have four forecast days,
    and agree day by day on the forecast label, the wind direction, the
    icon and the description.  (The timestamp and the dates come from the
    clock; the temperatures, humidities and wind speed of each day are
    drawn with [Math.random].) *)
Theorem getFallbackWeatherData_fixed_part (w1 w2 : world) :
  dates_in_range w1 -> dates_in_range w2 ->
  exists d1 w1' d2 w2',
    getFallbackWeatherData w1 = (Normal d1, w1') /\
    getFallbackWeatherData w2 = (Normal d2, w2') /\
    same_current_but_timestamp (WeatherData.current d1) (WeatherData.current d2) /\
    Forall2 same_day_labels (WeatherData.forecast d1) (WeatherData.forecast d2) /\
    List.length (WeatherData.forecast d1) = 4%nat.
Proof.
  intros H1 H2.
  destruct (fallback_days_agree ["Today"; "Tomorrow"; "Day 3"; "Day 4"] 0%Z (tick w1) (tick w2))
    as (ys1 & v1 & ys2 & v2 & R1 & R2 & HF & HL);
    [lia | cbn; lia
     | exact (readings_in_range_tick 4 w1 H1) | exact (readings_in_range_tick 4 w2 H2) |].
  unfold getFallbackWeatherData, getFallbackForecastData.
  rewrite (mbind_Normal _ _ _ _ _ (getFallbackCurrentWeather_eq w1)).
  rewrite (mbind_Normal _ _ _ _ _ (getFallbackCurrentWeather_eq w2)).
  rewrite (mbind_Normal _ _ _ _ _ R1), (mbind_Normal _ _ _ _ _ R2).
  do 4 eexists. split; [reflexivity |]. split; [reflexivity |].
  cbn [WeatherData.current WeatherData.forecast].
  split; [| split; [exact HF | exact HL]].
  unfold same_current_but_timestamp. cbn. repeat split.
Qed.

Lemma getFallbackWeatherData_fixed_part_witness :
  exists d1 w1' d2 w2',
    getFallbackWeatherData Samples.offline = (Normal d1, w1') /\
    getFallbackWeatherData Samples.offline_half = (Normal d2, w2') /\
    same_current_but_timestamp (WeatherData.current d1) (WeatherData.current d2) /\
    Forall2 same_day_labels (WeatherData.forecast d1) (WeatherData.forecast d2) /\
    List.length (WeatherData.forecast d1) = 4%nat.
Proof.
  apply (getFallbackWeatherData_fixed_part Samples.offline Samples.offline_half);
    apply sample_dates_in_range.
Defined.

(** C3, as the claim states it, fails: two browsers that differ only in
    what [Math.random] returns (0 against 0.5) get different fallback
    bundles, the first day's high being 32 in one and 34 in the other. *)
Lemma getFallbackWeatherData_depends_on_random :
  fst (getFallbackWeatherData Samples.offline)
  <> fst (getFallbackWeatherData Samples.offline_half) /\
  option_map (fun d => map (fun day => Forecast.high (ForecastDay.temperature day))
                         (WeatherData.forecast d))
    (match fst (getFallbackWeatherData Samples.offline) with
     | Normal d => Some d | Throw _ => None end)
  = Some [32; 32; 32; 32] /\
  option_map (fun d => map (fun day => Forecast.high (ForecastDay.temperature day))
                         (WeatherData.forecast d))
    (match fst (getFallbackWeatherData Samples.offline_half) with
     | Normal d => Some d | Throw _ => None end)
  = Some [34; 34; 34; 34].
Proof.
  split; [vm_compute; intro H; discriminate H |].
  split; vm_compute; reflexivity.
Qed.

End Fallback.

(** ** Fetching and normalising *)

Section Pipeline.
Local Open Scope float_scope.

Lemma fetchRealtimeWeather_world (w : world) : snd (fetchRealtimeWeather w) = w.
Proof.
  unfold fetchRealtimeWeather.
  destruct (realtime_response w) as [e | ok status json]; [reflexivity |].
  destruct ok; reflexivity.
Qed.

Lemma fetch4DayForecast_world (w : world) : snd (fetch4DayForecast w) = w.
Proof.
  unfold fetch4DayForecast.
  destruct (forecast_response w) as [e | ok status json]; [reflexivity |].
  destruct ok; reflexivity.
Qed.

(** A rejected fetch, whichever of the two, sends [getCurrentWeather] to
    its [catch] block. *)
Lemma getCurrentWeather_on_reject (w : world) :
  rejects fetchRealtimeWeather w \/ rejects fetch4DayForecast w ->
  getCurrentWeather w = getFallbackWeatherData w.
Proof.
  intros H. unfold getCurrentWeather, mtry.
  pose proof (fetchRealtimeWeather_world w) as Hr.
  pose proof (fetch4DayForecast_world w) as Hf.
  destruct (fetchRealtimeWeather w) as [[realtimeData | e] w1] eqn:Er; cbn in Hr; subst w1.
  - destruct H as [[e He] | [e He]].
    + rewrite Er in He. discriminate He.
    + rewrite (mbind_Normal _ _ _ _ _ Er).
      destruct (fetch4DayForecast w) as [c w2] eqn:Ef. cbn in Hf, He. subst w2 c.
      rewrite (mbind_Throw _ _ _ _ _ Ef). reflexivity.
  - rewrite (mbind_Throw _ _ _ _ _ Er). reflexivity.
Qed.

(** C2, as the code has it.  When either weather fetch rejects and the
    dates of the fallback forecast are within the range of [Date] (the
    clock readings are time values at least three days before its end),
    [getCurrentWeather] returns a record whose current part is the fallback
    literal: temperature 29, humidity 78, windSpeed 12, rainfall 0,
    condition "pleasant". *)
Theorem getCurrentWeather_fallback_literal (w : world) :
  rejects fetchRealtimeWeather w \/ rejects fetch4DayForecast w ->
  dates_in_range w ->
  exists data w',
    getCurrentWeather w = (Normal data, w') /\
    CurrentWeather.temperature (WeatherData.current data) = 29 /\
    CurrentWeather.humidity (WeatherData.current data) = 78 /\
    CurrentWeather.windSpeed (WeatherData.current data) = 12 /\
    CurrentWeather.rainfall (WeatherData.current data) = 0 /\
    CurrentWeather.condition (WeatherData.current data) = "pleasant".
Proof.
  intros H Hd. rewrite (getCurrentWeather_on_reject w H).
  destruct (getFallbackWeatherData_returns w Hd) as (days & w' & E & _).
  rewrite E. eexists. eexists. split; [reflexivity |].
  cbn. repeat split.
Qed.

Lemma getCurrentWeather_fallback_literal_witness :
  exists data w',
    getCurrentWeather Samples.offline = (Normal data, w') /\
    CurrentWeather.temperature (WeatherData.current data) = 29 /\
    CurrentWeather.humidity (WeatherData.current data) = 78 /\
    CurrentWeather.windSpeed (WeatherData.current data) = 12 /\
    CurrentWeather.rainfall (WeatherData.current data) = 0 /\
    CurrentWeather.condition (WeatherData.current data) = "pleasant".
Proof.
  apply (getCurrentWeather_fallback_literal Samples.offline).
  - left. exists (TypeError "Failed to fetch"). reflexivity.
  - apply sample_dates_in_range.
Defined.

(** C2, as the claim states it, fails at the end of the range of [Date]:
    with the clock one second before the last time value and no network,
    the fetch rejects, the fallback forecast asks for tomorrow's date,
    [toISOString] throws a RangeError in the [catch] block, and
    [getCurrentWeather] rejects instead of returning a record. *)
Lemma getCurrentWeather_fallback_can_throw :
  rejects fetchRealtimeWeather (Samples.one_second_left Samples.offline) /\
  fst (getCurrentWeather (Samples.one_second_left Samples.offline))
  = Throw (RangeError "Invalid time value") /\
  ~ exists data w',
      getCurrentWeather (Samples.one_second_left Samples.offline) = (Normal data, w').
Proof.
  assert (E : fst (getCurrentWeather (Samples.one_second_left Samples.offline))
              = Throw (RangeError "Invalid time value"))
    by (vm_compute; reflexivity).
  split; [exists (TypeError "Failed to fetch"); reflexivity |].
  split; [exact E |].
  intros (data & w' & R). rewrite R in E. discriminate E.
Qed.

(** C8, as the code has it.  When the realtime readings arrive and the
    forecast fetch rejects, [getCurrentWeather] ends exactly as the
    fallback path does, so that nothing of the fetched readings is kept;
    and when the dates of the fallback forecast are within the range of
    [Date] (the clock readings are time values at least three days before
    its end), it returns the fallback current record and the fallback
    forecast list. *)
Theorem getCurrentWeather_no_partial_success (w : world) (realtimeData : Realtime.payload) :
  fst (fetchRealtimeWeather w) = Normal realtimeData ->
  rejects fetch4DayForecast w ->
  getCurrentWeather w = getFallbackWeatherData w /\
  (dates_in_range w ->
   exists data w',
     getCurrentWeather w = (Normal data, w') /\
     fst (getFallbackCurrentWeather w) = Normal (WeatherData.current data) /\
     fst (getFallbackForecastData (tick w)) = Normal (WeatherData.forecast data)).
Proof.
  intros _ Hf.
  assert (E : getCurrentWeather w = getFallbackWeatherData w)
    by (apply getCurrentWeather_on_reject; now right).
  split; [exact E |]. intros Hd. rewrite E.
  destruct (getFallbackWeatherData_returns w Hd) as (days & w' & R & _).
  eexists. exists w'. split; [exact R |].
  split; [reflexivity |].
  revert R. unfold getFallbackWeatherData.
  rewrite (mbind_Normal _ _ _ _ _ (getFallbackCurrentWeather_eq w)).
  unfold mbind.
  destruct (getFallbackForecastData (tick w)) as [[ys | e] v]; intros R.
  - injection R as Hys _. cbn. now rewrite Hys.
  - discriminate R.
Qed.

Lemma getCurrentWeather_no_partial_success_witness :
  getCurrentWeather Samples.forecast_down = getFallbackWeatherData Samples.forecast_down /\
  exists data w',
    getCurrentWeather Samples.forecast_down = (Normal data, w') /\
    fst (getFallbackCurrentWeather Samples.forecast_down) = Normal (WeatherData.current data) /\
    fst (getFallbackForecastData (tick Samples.forecast_down))
    = Normal (WeatherData.forecast data).
Proof.
  destruct (getCurrentWeather_no_partial_success Samples.forecast_down
              Samples.payload_with_wind eq_refl
              (ex_intro _ (Error "NEA Forecast API error: 503") eq_refl)) as [E R].
  split; [exact E | apply R, sample_dates_in_range].
Defined.

(** C8, as the claim states it, fails at the end of the range of [Date]:
    with the clock one second before the last time value, the readings
    arriving and the forecast endpoint answering 503, the fallback forecast
    throws a RangeError in the [catch] block and [getCurrentWeather]
    rejects: no bundle is returned, neither live nor fallback. *)
Lemma getCurrentWeather_forecast_down_can_throw :
  fst (fetchRealtimeWeather (Samples.one_second_left Samples.forecast_down))
  = Normal Samples.payload_with_wind /\
  rejects fetch4DayForecast (Samples.one_second_left Samples.forecast_down) /\
  fst (getCurrentWeather (Samples.one_second_left Samples.forecast_down))
  = Throw (RangeError "Invalid time value") /\
  ~ exists data w',
      getCurrentWeather (Samples.one_second_left Samples.forecast_down) = (Normal data, w').
Proof.
  assert (E : fst (getCurrentWeather (Samples.one_second_left Samples.forecast_down))
              = Throw (RangeError "Invalid time value"))
    by (vm_compute; reflexivity).
  split; [reflexivity |].
  split; [exists (Error "NEA Forecast API error: 503"); reflexivity |].
  split; [exact E |].
  intros (data & w' & R). rewrite R in E. discriminate E.
Qed.

End Pipeline.

(** ** Formatting the current readings *)

Section CurrentFormatting.
Local Open Scope float_scope.

(** Whenever a wind reading is selected, the [try] block ends in the
    ReferenceError of the self-referencing initialiser. *)
Lemma formatCurrentWeather_try_wind_selected (data : Realtime.payload) (r : station_reading) :
  windReading data = Some r ->
  formatCurrentWeather_try data
  = Throw (ReferenceError "Cannot access 'windSpeed' before initialization").
Proof.
  unfold windReading, selected, formatCurrentWeather_try.
  destruct (Realtime.items data) as [| latest rest]; [discriminate |].
  cbn [first_or_throw JS.bind].
  destruct (wind_speed (Realtime.readings latest)) as [stations |]; [| discriminate].
  intros H. rewrite H. reflexivity.
Qed.

(** ... and [formatCurrentWeather] answers with the whole fallback record. *)
Lemma formatCurrentWeather_wind_selected (data : Realtime.payload) (r : station_reading)
  (w : world) :
  windReading data = Some r ->
  formatCurrentWeather data w = getFallbackCurrentWeather w.
Proof.
  intros H. unfold formatCurrentWeather, mtry, lift.
  now rewrite (formatCurrentWeather_try_wind_selected data r H).
Qed.

(** Without a selected wind reading the record is built from the payload,
    each category that lists no station falling back to its own default. *)
Lemma formatCurrentWeather_without_wind (data : Realtime.payload) (latest : Realtime.item)
  (rest : list Realtime.item) (w : world) :
  Realtime.items data = latest :: rest ->
  windReading data = None ->
  formatCurrentWeather data w
  = (Normal
       (currentWeatherRecord
          (match selected is_changi (air_temperature (Realtime.readings latest)) with
           | Some r => value r | None => 28 end)
          (match selected is_changi (relative_humidity (Realtime.readings latest)) with
           | Some r => value r | None => 75 end)
          10
          (match selected is_pasir_ris (rainfall (Realtime.readings latest)) with
           | Some r => value r | None => 0 end)
          (Realtime.timestamp latest)),
     w).
Proof.
  intros Hitems. unfold windReading, selected.
  unfold formatCurrentWeather, mtry, lift, formatCurrentWeather_try.
  rewrite Hitems. cbn [first_or_throw JS.bind].
  destruct (wind_speed (Realtime.readings latest)) as [stations |].
  - intros H. rewrite H. reflexivity.
  - intros _. reflexivity.
Qed.

(** C1: the code at a payload whose selected wind reading is 5 m/s.  The
    conversion announced in the source gives 18 km/h; the record
    [formatCurrentWeather] returns is the fallback one, with windSpeed 12,
    in every browser. *)
Theorem formatCurrentWeather_drops_wind_reading :
  windReading Samples.payload_with_wind = Some (Samples.reading "S24" 5) /\
  kmh_rounded 5 = 18 /\
  forall w : world,
    formatCurrentWeather Samples.payload_with_wind w = getFallbackCurrentWeather w /\
    option_map CurrentWeather.windSpeed
      (match fst (formatCurrentWeather Samples.payload_with_wind w) with
       | Normal r => Some r
       | Throw _ => None
       end) = Some 12.
Proof.
  split; [reflexivity |]. split; [vm_compute; reflexivity |].
  intros w.
  rewrite (formatCurrentWeather_wind_selected Samples.payload_with_wind
             (Samples.reading "S24" 5) w eq_refl).
  split; reflexivity.
Qed.

(** C10: the code at a payload that lists no temperature station.  With
    the [wind_speed] key absent the temperature alone is defaulted (28) and
    the humidity is the live one (70); with a wind reading present the same
    payload gets the whole fallback record instead (29, 78, 12). *)
Theorem formatCurrentWeather_empty_category :
  forall w : world,
    (exists r,
        formatCurrentWeather Samples.payload_no_temperature_no_wind w = (Normal r, w) /\
        CurrentWeather.temperature r = 28 /\
        CurrentWeather.humidity r = 70 /\
        CurrentWeather.windSpeed r = 10 /\
        CurrentWeather.rainfall r = 0) /\
    (exists r,
        formatCurrentWeather Samples.payload_no_temperature w = (Normal r, tick w) /\
        CurrentWeather.temperature r = 29 /\
        CurrentWeather.humidity r = 78 /\
        CurrentWeather.windSpeed r = 12 /\
        CurrentWeather.rainfall r = 0).
Proof.
  intros w. split.
  - eexists. split.
    + eapply formatCurrentWeather_without_wind; reflexivity.
    + vm_compute. repeat split.
  - eexists. split.
    + rewrite (formatCurrentWeather_wind_selected Samples.payload_no_temperature
                 (Samples.reading "S24" 5) w eq_refl).
      apply getFallbackCurrentWeather_eq.
    + cbn. repeat split.
Qed.

End CurrentFormatting.


(** * Further properties *)

(** ** The weather pipeline as a whole *)

Section PipelineTotality.
Local Open Scope float_scope.

Lemma formatCurrentWeather_try_Normal (data : Realtime.payload) (r : CurrentWeather.t) :
  formatCurrentWeather_try data = Normal r ->
  Realtime.items data <> [] /\ windReading data = None /\
  CurrentWeather.location r = "Pasir Ris Area".
Proof.
  unfold formatCurrentWeather_try, windReading, selected.
  destruct (Realtime.items data) as [| latest rest]; [discriminate |].
  cbn [first_or_throw JS.bind].
  destruct (wind_speed (Realtime.readings latest)) as [stations |].
  - destruct (find_or_first is_changi stations); [discriminate |].
    cbn [JS.bind]. intros H. injection H as <-. repeat split. discriminate.
  - cbn [JS.bind]. intros H. injection H as <-. repeat split. discriminate.
Qed.

Lemma formatCurrentWeather_try_Throw (data : Realtime.payload) (e : error) :
  formatCurrentWeather_try data = Throw e ->
  Realtime.items data = [] \/ windReading data <> None.
Proof.
  unfold formatCurrentWeather_try, windReading, selected.
  destruct (Realtime.items data) as [| latest rest]; [now left |].
  cbn [first_or_throw JS.bind]. right.
  destruct (wind_speed (Realtime.readings latest)) as [stations |].
  - destruct (find_or_first is_changi stations); discriminate.
  - discriminate.
Qed.

(** X2. [formatCurrentWeather] never throws, and the [location] field of
    its record tells where the record came from: "Pasir Ris Area" exactly
    when it was built from the payload (which then has a latest item and
    selects no wind reading, and the browser is left as it was),
    "Singapore" exactly when it is the fallback record (the payload has no
    item, or a wind reading was selected). *)
Theorem formatCurrentWeather_live_or_fallback (data : Realtime.payload) (w : world) :
  exists r w',
    formatCurrentWeather data w = (Normal r, w') /\
    ((CurrentWeather.location r = "Pasir Ris Area" /\ w' = w /\
      Realtime.items data <> [] /\ windReading data = None) \/
     (CurrentWeather.location r = "Singapore" /\
      getFallbackCurrentWeather w = (Normal r, w') /\
      (Realtime.items data = [] \/ windReading data <> None))).
Proof.
  unfold formatCurrentWeather, mtry, lift.
  destruct (formatCurrentWeather_try data) as [r | e] eqn:E.
  - exists r, w. split; [reflexivity |]. left.
    destruct (formatCurrentWeather_try_Normal data r E) as (Hi & Hw & Hl).
    repeat split; assumption.
  - rewrite getFallbackCurrentWeather_eq. eexists. eexists. split; [reflexivity |].
    right. split; [reflexivity |]. split; [reflexivity |].
    exact (formatCurrentWeather_try_Throw data e E).
Qed.


(** X3. [formatForecastData] on a body without items returns the fallback
    forecast; on a body with items it returns one entry per forecast of the
    first item, in the same order and with the same dates, labels and
    temperature ranges, ignoring the other items and leaving the browser as
    it was. *)
Theorem formatForecastData_shape (data : Forecast.payload) (w : world) :
  (Forecast.items data = [] ->
   formatForecastData data w = getFallbackForecastData w) /\
  (forall first rest,
      Forecast.items data = first :: rest ->
      exists days,
        formatForecastData data w = (Normal days, w) /\
        List.length days = List.length (Forecast.forecasts first) /\
        map ForecastDay.date days = map Forecast.date (Forecast.forecasts first) /\
        map ForecastDay.forecast days = map Forecast.forecast (Forecast.forecasts first) /\
        map ForecastDay.temperature days
        = map Forecast.temperature (Forecast.forecasts first)).
Proof.
  unfold formatForecastData, mtry, lift. split.
  - intros ->. reflexivity.
  - intros first rest ->. cbn [first_or_throw JS.bind].
    eexists. split; [reflexivity |].
    split; [apply length_map |].
    rewrite !map_map. repeat split; apply map_ext; intros day; cbn; try reflexivity.
    now destruct (Forecast.temperature day).
Qed.

Lemma formatForecastData_shape_witness :
  exists days,
    formatForecastData Samples.forecast_payload Samples.offline = (Normal days, Samples.offline) /\
    List.length days = 1%nat /\
    map ForecastDay.date days = ["2025-11-04"] /\
    map ForecastDay.forecast days = ["Afternoon thundery showers"] /\
    map ForecastDay.temperature days = [{| Forecast.high := 33; Forecast.low := 25 |}].
Proof.
  exact (proj2 (formatForecastData_shape Samples.forecast_payload Samples.offline) _ [] eq_refl).
Defined.

(** [formatCurrentWeather] always returns, having read the clock at most
    once. *)
Lemma formatCurrentWeather_returns (data : Realtime.payload) (w : world) :
  exists r w', formatCurrentWeather data w = (Normal r, w') /\ (w' = w \/ w' = tick w).
Proof.
  unfold formatCurrentWeather, mtry, lift.
  destruct (formatCurrentWeather_try data) as [r | e].
  - exists r, w. split; [reflexivity | now left].
  - rewrite getFallbackCurrentWeather_eq. eexists. eexists. split; [reflexivity | now right].
Qed.

(** [formatForecastData] returns when the dates its fallback would render
    are within range. *)
Lemma formatForecastData_returns (data : Forecast.payload) (w : world) :
  readings_in_range 4 w ->
  exists days w', formatForecastData data w = (Normal days, w').
Proof.
  intros H. unfold formatForecastData, mtry, lift.
  destruct (Forecast.items data) as [| first rest]; cbn [first_or_throw JS.bind].
  - destruct (getFallbackForecastData_returns w H) as (days & w' & R & _).
    now exists days, w'.
  - eexists. eexists. reflexivity.
Qed.

(** Every path through [getCurrentWeather] reads the clock at most five
    times, for dates at most three days ahead. *)
Lemma getCurrentWeather_returns (w : world) :
  dates_in_range w ->
  exists data w', getCurrentWeather w = (Normal data, w').
Proof.
  intros H. unfold getCurrentWeather.
  assert (F : forall e, exists data w',
               mtry (fun w0 => (Throw e, w)) (fun error => getFallbackWeatherData) w
               = (Normal data, w')).
  { intros e. unfold mtry.
    destruct (getFallbackWeatherData_returns w H) as (days & w' & R & _).
    rewrite R. eexists. eexists. reflexivity. }
  pose proof (fetchRealtimeWeather_world w) as Wr.
  pose proof (fetch4DayForecast_world w) as Wf.
  destruct (fetchRealtimeWeather w) as [[realtimeData | e] w1] eqn:Er; cbn in Wr; subst w1.
  - destruct (fetch4DayForecast w) as [[forecastData | e] w2] eqn:Ef; cbn in Wf; subst w2.
    + destruct (formatCurrentWeather_returns realtimeData w) as (current & w1 & Ec & Hw).
      assert (H4 : readings_in_range 4 w1).
      { destruct Hw as [-> | ->].
        - exact (readings_in_range_fewer 5 4 w ltac:(lia) H).
        - exact (readings_in_range_tick 4 w H). }
      destruct (formatForecastData_returns forecastData w1 H4) as (forecast & w2 & Ed).
      eexists. exists w2. apply mtry_Normal.
      rewrite (mbind_Normal _ _ _ _ _ Er), (mbind_Normal _ _ _ _ _ Ef).
      rewrite (mbind_Normal _ _ _ _ _ Ec), (mbind_Normal _ _ _ _ _ Ed). reflexivity.
    + destruct (F e) as (data & w' & R). exists data, w'.
      rewrite <- R. unfold mtry.
      rewrite (mbind_Normal _ _ _ _ _ Er), (mbind_Throw _ _ _ _ _ Ef). reflexivity.
  - destruct (F e) as (data & w' & R). exists data, w'.
    rewrite <- R. unfold mtry. rewrite (mbind_Throw _ _ _ _ _ Er). reflexivity.
Qed.

(** X1. [getCurrentWeather] does not reject as long as the dates of the
    fallback data can be rendered: in every browser whose next clock
    readings are time values at least three days before the end of the
    range of [Date], whatever the two endpoints answer, its promise resolves
    with a weather bundle.  (Within three days of that end,
    [toISOString] throws a RangeError in the fallback path.) *)
Theorem getCurrentWeather_never_rejects (w : world) :
  dates_in_range w ->
  exists data w', getCurrentWeather w = (Normal data, w').
Proof.
  intros H. destruct (getCurrentWeather_returns w H) as (data & w' & E).
  now exists data, w'.
Qed.

Lemma getCurrentWeather_never_rejects_witness :
  exists data w', getCurrentWeather Samples.forecast_down = (Normal data, w').
Proof.
  apply (getCurrentWeather_never_rejects Samples.forecast_down).
  apply sample_dates_in_range.
Defined.

(** X4. When both fetches succeed, the latest item selects no wind reading
    and the forecast body has an item, [getCurrentWeather] returns the live
    bundle: the current record built from the selected (or per-field
    default) temperature, humidity and rainfall with wind speed 10, and one
    forecast day per day of the payload; it reads neither the clock nor
    [Math.random]. *)
Theorem getCurrentWeather_live (w : world)
  (realtimeData : Realtime.payload) (forecastData : Forecast.payload)
  (latest : Realtime.item) (rest : list Realtime.item)
  (first : Forecast.item) (others : list Forecast.item) :
  fst (fetchRealtimeWeather w) = Normal realtimeData ->
  fst (fetch4DayForecast w) = Normal forecastData ->
  Realtime.items realtimeData = latest :: rest ->
  windReading realtimeData = None ->
  Forecast.items forecastData = first :: others ->
  getCurrentWeather w
  = (Normal
       {| WeatherData.current :=
            currentWeatherRecord
              (match selected is_changi (air_temperature (Realtime.readings latest)) with
               | Some r => value r | None => 28 end)
              (match selected is_changi (relative_humidity (Realtime.readings latest)) with
               | Some r => value r | None => 75 end)
              10
              (match selected is_pasir_ris (rainfall (Realtime.readings latest)) with
               | Some r => value r | None => 0 end)
              (Realtime.timestamp latest);
          WeatherData.forecast := map formatForecastDay (Forecast.forecasts first) |},
     w).
Proof.
  intros Hr Hf Hitems Hwind Hfirst.
  pose proof (fetchRealtimeWeather_world w) as Wr.
  pose proof (fetch4DayForecast_world w) as Wf.
  destruct (fetchRealtimeWeather w) as [c1 w1] eqn:Er. cbn in Hr, Wr. subst c1 w1.
  destruct (fetch4DayForecast w) as [c2 w2] eqn:Ef. cbn in Hf, Wf. subst c2 w2.
  unfold getCurrentWeather.
  apply mtry_Normal.
  rewrite (mbind_Normal _ _ _ _ _ Er), (mbind_Normal _ _ _ _ _ Ef).
  rewrite (mbind_Normal _ _ _ _ _
             (formatCurrentWeather_without_wind realtimeData latest rest w Hitems Hwind)).
  assert (Hd : formatForecastData forecastData w
               = (Normal (map formatForecastDay (Forecast.forecasts first)), w)).
  { unfold formatForecastData, mtry, lift. now rewrite Hfirst. }
  rewrite (mbind_Normal _ _ _ _ _ Hd). reflexivity.
Qed.

Lemma getCurrentWeather_live_witness :
  exists data,
    getCurrentWeather MoreSamples.located = (Normal data, MoreSamples.located) /\
    CurrentWeather.location (WeatherData.current data) = "Pasir Ris Area".
Proof.
  eexists. split.
  - eapply (getCurrentWeather_live MoreSamples.located
              Samples.payload_no_temperature_no_wind Samples.forecast_payload);
      reflexivity.
  - reflexivity.
Defined.

End PipelineTotality.

(** ** What the weather service leaves untouched *)

Section Footprint.

Lemma only_reads_oracles_refl (w : world) : only_reads_oracles w w.
Proof. unfold only_reads_oracles. repeat split; auto. Qed.

Lemma only_reads_oracles_trans (w1 w2 w3 : world) :
  only_reads_oracles w1 w2 -> only_reads_oracles w2 w3 -> only_reads_oracles w1 w3.
Proof.
  unfold only_reads_oracles.
  intros (G1 & L1 & F1 & R1 & C1 & K1 & D1 & N1 & M1) (G2 & L2 & F2 & R2 & C2 & K2 & D2 & N2 & M2).
  repeat split; try congruence; lia.
Qed.

Lemma oracle_only_ret {A} (a : A) : oracle_only (ret a).
Proof. intros w. apply only_reads_oracles_refl. Qed.

Lemma oracle_only_lift {A} (c : completion A) : oracle_only (lift c).
Proof. intros w. apply only_reads_oracles_refl. Qed.

Lemma oracle_only_Date_now : oracle_only Date_now.
Proof. intros w. unfold only_reads_oracles. cbn. repeat split; lia. Qed.

Lemma oracle_only_Math_random : oracle_only Math_random.
Proof. intros w. unfold only_reads_oracles. cbn. repeat split; lia. Qed.

Lemma oracle_only_mbind {A B} (c : M A) (k : A -> M B) :
  oracle_only c -> (forall a, oracle_only (k a)) -> oracle_only (mbind c k).
Proof.
  intros Hc Hk w. unfold mbind. specialize (Hc w).
  destruct (c w) as [[a | e] w1]; cbn [snd] in *.
  - eapply only_reads_oracles_trans; [exact Hc | apply Hk].
  - exact Hc.
Qed.

Lemma oracle_only_mtry {A} (body : M A) (handler : error -> M A) :
  oracle_only body -> (forall e, oracle_only (handler e)) -> oracle_only (mtry body handler).
Proof.
  intros Hb Hh w. unfold mtry. specialize (Hb w).
  destruct (body w) as [[a | e] w1]; cbn [snd] in *.
  - exact Hb.
  - eapply only_reads_oracles_trans; [exact Hb | apply Hh].
Qed.

Lemma oracle_only_map_with_index {A B} (callback : A -> Z -> M B) :
  (forall x i, oracle_only (callback x i)) ->
  forall arr index, oracle_only (map_with_index callback arr index).
Proof.
  intros Hcb arr. induction arr as [| x rest IH]; intros index; cbn [map_with_index].
  - apply oracle_only_ret.
  - apply oracle_only_mbind; [apply Hcb |]. intros y.
    apply oracle_only_mbind; [apply IH |]. intros ys. apply oracle_only_ret.
Qed.

Ltac oracle_steps :=
  repeat first
    [ apply oracle_only_ret | apply oracle_only_lift
    | apply oracle_only_Date_now | apply oracle_only_Math_random
    | apply oracle_only_mtry | apply oracle_only_mbind | intro ].

Lemma oracle_only_getFallbackCurrentWeather : oracle_only getFallbackCurrentWeather.
Proof. unfold getFallbackCurrentWeather. oracle_steps. Qed.

Lemma oracle_only_getFallbackForecastData : oracle_only getFallbackForecastData.
Proof.
  unfold getFallbackForecastData. apply oracle_only_map_with_index.
  intros day index. unfold fallbackForecastDay. oracle_steps.
Qed.

Lemma oracle_only_getFallbackWeatherData : oracle_only getFallbackWeatherData.
Proof.
  unfold getFallbackWeatherData.
  apply oracle_only_mbind; [apply oracle_only_getFallbackCurrentWeather |]. intros c.
  apply oracle_only_mbind; [apply oracle_only_getFallbackForecastData |]. intros f.
  apply oracle_only_ret.
Qed.

Lemma oracle_only_fetchRealtimeWeather : oracle_only fetchRealtimeWeather.
Proof. intros w. rewrite fetchRealtimeWeather_world. apply only_reads_oracles_refl. Qed.

Lemma oracle_only_fetch4DayForecast : oracle_only fetch4DayForecast.
Proof. intros w. rewrite fetch4DayForecast_world. apply only_reads_oracles_refl. Qed.

(** X5. Neither [getCurrentWeather] nor the fallback path changes anything
    in the browser but the number of clock readings and random draws taken:
    geolocation, local storage and the endpoints' answers are as before. *)
Theorem getCurrentWeather_only_reads_oracles (w : world) :
  only_reads_oracles w (snd (getCurrentWeather w)) /\
  only_reads_oracles w (snd (getFallbackWeatherData w)).
Proof.
  split; [| apply oracle_only_getFallbackWeatherData].
  revert w. change (oracle_only getCurrentWeather). unfold getCurrentWeather.
  apply oracle_only_mtry; [| intros e; apply oracle_only_getFallbackWeatherData].
  apply oracle_only_mbind; [apply oracle_only_fetchRealtimeWeather |]. intros realtimeData.
  apply oracle_only_mbind; [apply oracle_only_fetch4DayForecast |]. intros forecastData.
  apply oracle_only_mbind.
  { unfold formatCurrentWeather. apply oracle_only_mtry; [apply oracle_only_lift |].
    intros e. apply oracle_only_getFallbackCurrentWeather. }
  intros current. apply oracle_only_mbind.
  { unfold formatForecastData. apply oracle_only_mtry; [apply oracle_only_lift |].
    intros e. apply oracle_only_getFallbackForecastData. }
  intros forecast. apply oracle_only_ret.
Qed.

End Footprint.

(** ** Loading the location and the weather *)

Section Loading.
Import ShoreSquadApp.

(** X11. When the browser reports a position, [getCurrentPosition] resolves
    with it (latitude, longitude, accuracy).  Unless the storage refuses the
    write, [Utils.getLocalStorage] then reads back, under the user-location
    key, the object [JSON.stringify] wrote: lat, lng and accuracy, each the
    reported number when that is finite and not [-0], with [-0] read back
    as 0 and NaN or an infinity as null.  When the storage refuses the
    write, the promise still resolves and the browser is unchanged. *)
Theorem getCurrentPosition_success_persists (w : world) (latitude longitude acc : float) :
  geolocation w = Some (GeoPosition latitude longitude acc) ->
  let position :=
    {| lat := latitude; lng := longitude; accuracy := Some acc; name := None |} in
  fst (getCurrentPosition w) = Normal position /\
  (storage_full w = false ->
   fst (Utils.getLocalStorage CONFIG.STORAGE_KEYS.USER_LOCATION JSON.JNull
          (snd (getCurrentPosition w)))
   = Normal (JSON.JObject [("lat", JSON.of_number latitude);
                           ("lng", JSON.of_number longitude);
                           ("accuracy", JSON.of_number acc)])) /\
  (storage_full w = true -> snd (getCurrentPosition w) = w) /\
  (forall x : float,
      Float64.finite x = true -> Prim2SF x <> S754_zero true ->
      JSON.of_number x = JSON.JNumber x) /\
  JSON.of_number (- 0) = JSON.JNumber 0 /\
  JSON.of_number nan = JSON.JNull /\
  JSON.of_number infinity = JSON.JNull.
Proof.
  intros H position.
  split; [now rewrite (getCurrentPosition_success w latitude longitude acc H) |].
  split.
  - intros Hfull. unfold Utils.getLocalStorage, mtry.
    now rewrite (getCurrentPosition_persists w latitude longitude acc H Hfull).
  - split.
    + intros Hfull. now rewrite (getCurrentPosition_success w latitude longitude acc H), Hfull.
    + split; [exact of_number_finite | repeat split].
Qed.

Lemma getCurrentPosition_success_persists_witness :
  fst (getCurrentPosition MoreSamples.located)
  = Normal {| lat := 1.3521; lng := 103.8198; accuracy := Some 25%float; name := None |} /\
  fst (Utils.getLocalStorage CONFIG.STORAGE_KEYS.USER_LOCATION JSON.JNull
         (snd (getCurrentPosition MoreSamples.located)))
  = Normal (JSON.JObject [("lat", JSON.JNumber 1.3521);
                          ("lng", JSON.JNumber 103.8198);
                          ("accuracy", JSON.JNumber 25)]).
Proof.
  destruct (getCurrentPosition_success_persists MoreSamples.located
              1.3521 103.8198 25 eq_refl) as (H1 & H2 & _).
  split; [exact H1 | exact (H2 eq_refl)].
Defined.

Lemma loadUserLocation_returns (app : ShoreSquadApp.t) (w : world) :
  exists position w',
    loadUserLocation app w = (Normal (set_userLocation app position), w') /\
    (forall latitude longitude acc,
        geolocation w = Some (GeoPosition latitude longitude acc) ->
        position = {| lat := latitude; lng := longitude; accuracy := Some acc; name := None |}) /\
    ((forall latitude longitude acc,
         geolocation w <> Some (GeoPosition latitude longitude acc)) ->
     position = CONFIG.DEFAULT_LOCATION /\ w' = w).
Proof.
  unfold loadUserLocation.
  destruct (geolocation w) as [[latitude longitude acc | code message] |] eqn:G.
  - pose proof (getCurrentPosition_success w latitude longitude acc G) as E. cbv zeta in E.
    eexists. eexists. split.
    + apply mtry_Normal. rewrite (mbind_Normal _ _ _ _ _ E). reflexivity.
    + split.
      * intros la lo ac [= <- <- <-]. reflexivity.
      * intros Hne. now destruct (Hne latitude longitude acc).
  - pose proof (getCurrentPosition_default_on_error w code message G) as E.
    exists CONFIG.DEFAULT_LOCATION, w. split.
    + apply mtry_Normal. rewrite (mbind_Normal _ _ _ _ _ E). reflexivity.
    + split; [discriminate | intros _; now split].
  - pose proof (getCurrentPosition_rejects_without_geolocation w G) as E.
    exists CONFIG.DEFAULT_LOCATION, w. split.
    + erewrite mtry_Throw; [reflexivity |].
      apply (mbind_Throw _ _ _ _ _ E).
    + split; [discriminate | intros _; now split].
Qed.

(** X12. [loadUserLocation] never throws and always sets [userLocation]:
    to the reported position when there is one, and to the default
    location, with the browser unchanged, when the geolocation capability
    is absent or reports an error. *)
Theorem loadUserLocation_never_rejects (app : ShoreSquadApp.t) (w : world) :
  exists position w',
    loadUserLocation app w = (Normal (set_userLocation app position), w') /\
    (forall latitude longitude acc,
        geolocation w = Some (GeoPosition latitude longitude acc) ->
        position = {| lat := latitude; lng := longitude; accuracy := Some acc; name := None |}) /\
    ((forall latitude longitude acc,
         geolocation w <> Some (GeoPosition latitude longitude acc)) ->
     position = CONFIG.DEFAULT_LOCATION /\ w' = w).
Proof. exact (loadUserLocation_returns app w). Qed.

Lemma loadWeatherData_returns (app : ShoreSquadApp.t) (w : world) :
  dates_in_range w ->
  exists data w',
    getCurrentWeather w = (Normal data, w') /\
    loadWeatherData app w = (Normal (set_weatherData app data), w').
Proof.
  intros H. destruct (getCurrentWeather_returns w H) as (data & w' & E).
  exists data, w'. split; [exact E |].
  unfold loadWeatherData. apply mtry_Normal.
  rewrite (mbind_Normal _ _ _ _ _ E). reflexivity.
Qed.

(** X13. As long as the dates of the fallback data can be rendered (the
    next clock readings are time values at least three days before the end
    of the range of [Date]), the [catch] block of [loadWeatherData] is not
    entered: [loadWeatherData] stores exactly the bundle
    [getCurrentWeather] resolves with. *)
Theorem loadWeatherData_is_getCurrentWeather (app : ShoreSquadApp.t) (w : world) :
  dates_in_range w ->
  exists data w',
    getCurrentWeather w = (Normal data, w') /\
    loadWeatherData app w = (Normal (set_weatherData app data), w').
Proof. exact (loadWeatherData_returns app w). Qed.

Lemma loadWeatherData_is_getCurrentWeather_witness :
  exists data w',
    getCurrentWeather MoreSamples.located = (Normal data, w') /\
    loadWeatherData (MoreSamples.app_with ["all"]) MoreSamples.located
    = (Normal (set_weatherData (MoreSamples.app_with ["all"]) data), w').
Proof.
  apply (loadWeatherData_is_getCurrentWeather (MoreSamples.app_with ["all"]) MoreSamples.located).
  apply sample_dates_in_range.
Defined.

(** [loadUserLocation] reads no clock: the readings to come are the same
    before and after. *)
Lemma loadUserLocation_keeps_clock (app : ShoreSquadApp.t) (w : world) :
  dates_in_range w -> dates_in_range (snd (loadUserLocation app w)).
Proof.
  intros H. unfold loadUserLocation, mtry, mbind, getCurrentPosition.
  destruct (geolocation w) as [[latitude longitude acc | code message] |]; cbn; try exact H.
  unfold Utils.setLocalStorage, mtry, mbind, localStorage_setItem.
  destruct (storage_full w); cbn; exact H.
Qed.

(** X14. As long as the dates of the fallback data can be rendered (the
    next clock readings are time values at least three days before the end
    of the range of [Date]), the two loading steps of [init] do not throw:
    afterwards both [userLocation] and [weatherData] are set, and the
    events and the active filters are as before. *)
Theorem loadLocationAndWeather_sets_both (app : ShoreSquadApp.t) (w : world) :
  dates_in_range w ->
  exists app' w',
    loadLocationAndWeather app w = (Normal app', w') /\
    userLocation app' <> None /\ weatherData app' <> None /\
    cleanupEvents app' = cleanupEvents app /\ activeFilters app' = activeFilters app.
Proof.
  intros H.
  pose proof (loadUserLocation_keeps_clock app w H) as H1.
  destruct (loadUserLocation_returns app w) as (position & w1 & E1 & _).
  rewrite E1 in H1. cbn [snd] in H1.
  destruct (loadWeatherData_returns (set_userLocation app position) w1 H1)
    as (data & w2 & _ & E2).
  eexists. exists w2. split.
  - unfold loadLocationAndWeather. rewrite (mbind_Normal _ _ _ _ _ E1). exact E2.
  - cbn. repeat split; discriminate.
Qed.

Lemma loadLocationAndWeather_sets_both_witness :
  exists app' w',
    loadLocationAndWeather (MoreSamples.app_with ["all"]) MoreSamples.located
    = (Normal app', w') /\
    userLocation app' <> None /\ weatherData app' <> None /\
    cleanupEvents app' = cleanupEvents (MoreSamples.app_with ["all"]) /\
    activeFilters app' = activeFilters (MoreSamples.app_with ["all"]).
Proof.
  apply (loadLocationAndWeather_sets_both (MoreSamples.app_with ["all"]) MoreSamples.located).
  apply sample_dates_in_range.
Defined.

End Loading.

(** ** Station selection *)

Section Selection.

(** X6. Station selection, [arr.find(preferred) || arr[0]]: nothing is
    selected exactly when the category lists no station; what is selected
    is a listed station, a preferred one or else the first of a list
    without preferred stations; and a preferred station is selected
    whenever one is listed. *)
Theorem selected_station (preferred : station_reading -> bool) (stations : list station_reading) :
  (selected preferred stations = None <-> stations = []) /\
  (forall r, selected preferred stations = Some r ->
     In r stations /\
     (preferred r = true \/
      (hd_error stations = Some r /\ forall x, In x stations -> preferred x = false))) /\
  (forall x, In x stations -> preferred x = true ->
     exists r, selected preferred stations = Some r /\ preferred r = true).
Proof.
  unfold selected, find_or_first.
  destruct (find preferred stations) as [r |] eqn:F.
  - apply find_some in F as [Hin Hp]. split; [| split].
    + split; [discriminate | intros ->; destruct Hin].
    + intros r' [= <-]. split; [exact Hin | now left].
    + intros x _ _. now exists r.
  - pose proof (find_none _ _ F) as Hnone. split; [| split].
    + destruct stations; cbn; split; congruence.
    + intros r H. split.
      * destruct stations as [| s rest]; [discriminate |]. injection H as <-. now left.
      * right. split; [exact H | exact Hnone].
    + intros x Hin Hp. rewrite (Hnone x Hin) in Hp. discriminate.
Qed.

End Selection.

(** ** Labels, icons and advisories *)

Section Tiers.
Local Open Scope float_scope.

(** Comparing against two positive finite thresholds, on their
    mantissa/exponent form. *)
Lemma below_by_compare (a b : float) (ma : positive) (ea : Z) (mb : positive) (eb : Z) :
  Prim2SF a = S754_finite false ma ea ->
  Prim2SF b = S754_finite false mb eb ->
  (ea <= eb)%Z ->
  (ea = eb -> (ma <= mb)%positive) ->
  below a b.
Proof.
  intros Ha Hb Hee Hm x. unfold gt. rewrite !ltb_spec, Ha, Hb.
  unfold SFltb, SFcompare.
  destruct (Prim2SF x) as [s | s | | s m e]; try discriminate.
  - now destruct s.
  - destruct s; [discriminate |].
    destruct (Z.compare_spec eb e) as [<- | Hlt | Hgt]; try discriminate.
    + destruct (Z.compare_spec ea eb) as [E | L | G]; [| reflexivity | lia].
      specialize (Hm E).
      intros Hc. rewrite Pos.compare_cont_spec in *. cbn [Pos.switch_Eq] in *.
      destruct (Pos.compare_spec mb m) as [? | ? | ?]; try discriminate.
      destruct (Pos.compare_spec ma m) as [? | ? | ?]; try reflexivity; lia.
    + intros _. destruct (Z.compare_spec ea e) as [? | ? | ?]; try reflexivity; lia.
Qed.

Lemma below_zero (b : float) (mb : positive) (eb : Z) :
  Prim2SF b = S754_finite false mb eb -> below 0 b.
Proof.
  intros Hb x. unfold gt. rewrite !ltb_spec, Hb.
  change (Prim2SF 0) with (S754_zero false).
  unfold SFltb, SFcompare.
  destruct (Prim2SF x) as [s | s | | s m e]; try discriminate.
  - now destruct s.
  - destruct s; [discriminate |]. reflexivity.
Qed.

Lemma below_5_10 : below 5 10.
Proof.
  apply (below_by_compare 5 10 5629499534213120 (-50) 5629499534213120 (-49));
    try reflexivity; intros; lia.
Qed.

Lemma below_2_5 : below 2 5.
Proof.
  apply (below_by_compare 2 5 4503599627370496 (-51) 5629499534213120 (-50));
    try reflexivity; intros; lia.
Qed.

Lemma below_0_2 : below 0 2.
Proof. apply (below_zero 2 4503599627370496 (-51)). reflexivity. Qed.

Lemma below_0_5 : below 0 5.
Proof. apply (below_zero 5 5629499534213120 (-50)). reflexivity. Qed.

(** X7. A current-weather record is labelled "rainy" exactly when its
    icon is the rain cloud: both test rainfall > 5. *)
Theorem rainy_label_iff_rain_icon
  (temperature humidity wind rainfall : float) (ts : string) :
  CurrentWeather.condition (currentWeatherRecord temperature humidity wind rainfall ts) = "rainy"
  <-> CurrentWeather.icon (currentWeatherRecord temperature humidity wind rainfall ts) = "🌧️".
Proof.
  cbn [currentWeatherRecord CurrentWeather.condition CurrentWeather.icon].
  unfold determineCondition, getWeatherIcon.
  destruct (gt rainfall 5).
  - split; reflexivity.
  - destruct (gt humidity 80), (gt temperature 32), (lt temperature 26),
      (gt rainfall 0), (gt temperature 28); split; discriminate.
Qed.

(** X8. The rain advisories agree with the label and the icon: the
    heavy-rain advisory (rainfall > 10) only comes with the label "rainy"
    and the rain-cloud icon; a "rainy" record always carries one of the two
    rain advisories; and the light-rain advisory always comes with one of
    the two rain icons. *)
Theorem rain_advisories_match_label_and_icon
  (temperature humidity wind rainfall : float) (ts : string) :
  let r := currentWeatherRecord temperature humidity wind rainfall ts in
  (CurrentWeather.description r = "Heavy rain - consider rescheduling cleanup" ->
   CurrentWeather.condition r = "rainy" /\ CurrentWeather.icon r = "🌧️") /\
  (CurrentWeather.condition r = "rainy" ->
   CurrentWeather.description r = "Heavy rain - consider rescheduling cleanup" \/
   CurrentWeather.description r = "Light rain - bring umbrellas!") /\
  (CurrentWeather.description r = "Light rain - bring umbrellas!" ->
   CurrentWeather.icon r = "🌧️" \/ CurrentWeather.icon r = "🌦️").
Proof.
  cbn [currentWeatherRecord CurrentWeather.condition CurrentWeather.icon
       CurrentWeather.description].
  unfold determineCondition, getWeatherIcon, getConditionDescription.
  pose proof (below_5_10 rainfall) as H105.
  pose proof (below_2_5 rainfall) as H52.
  pose proof (below_0_2 rainfall) as H20.
  destruct (gt rainfall 10), (gt rainfall 5), (gt rainfall 2), (gt rainfall 0);
    try (specialize (H105 eq_refl); discriminate H105);
    try (specialize (H52 eq_refl); discriminate H52);
    try (specialize (H20 eq_refl); discriminate H20);
    clear H105 H52 H20;
    destruct (gt humidity 80), (gt temperature 32), (lt temperature 26),
      (gt temperature 33), (gt temperature 30), (gt temperature 28);
    repeat split; intros; repeat split;
    first [ reflexivity | left; reflexivity | right; reflexivity | discriminate ].
Qed.

(** X9. For every forecast text, the rain icon goes with the advisory
    "Check weather before heading out" and only with it, the thunder icon
    with "Not suitable for beach activities" and only with it, and the sun
    icon always comes with "Perfect for beach cleanup!". *)
Theorem forecast_icon_matches_description (forecast : string) :
  (getForecastIcon forecast = "🌧️"
   <-> getForecastDescription forecast = "Check weather before heading out") /\
  (getForecastIcon forecast = "⛈️"
   <-> getForecastDescription forecast = "Not suitable for beach activities") /\
  (getForecastIcon forecast = "☀️" ->
   getForecastDescription forecast = "Perfect for beach cleanup!").
Proof.
  unfold getForecastIcon, getForecastDescription. cbv zeta.
  destruct (Str.includes (Str.toLowerCase forecast) "rain"),
    (Str.includes (Str.toLowerCase forecast) "shower"),
    (Str.includes (Str.toLowerCase forecast) "thunder"),
    (Str.includes (Str.toLowerCase forecast) "cloud"),
    (Str.includes (Str.toLowerCase forecast) "partly"),
    (Str.includes (Str.toLowerCase forecast) "fair"),
    (Str.includes (Str.toLowerCase forecast) "sunny");
    cbn [orb]; repeat split; intros H; try reflexivity; discriminate H.
Qed.
End Tiers.

Section ForecastText.

Lemma toLowerCase_app (a b : string) :
  Str.toLowerCase (a ++ b) = Str.toLowerCase a ++ Str.toLowerCase b.
Proof. induction a as [| c a IH]; cbn; [reflexivity | now rewrite IH]. Qed.

Lemma prefix_app (n rest : string) : String.prefix n (n ++ rest) = true.
Proof.
  induction n as [| c n IH]; cbn; [now destruct rest |].
  destruct (Ascii.ascii_dec c c) as [_ | Hne]; [exact IH | now destruct Hne].
Qed.

Lemma includes_app (pre n post : string) : Str.includes (pre ++ n ++ post) n = true.
Proof.
  induction pre as [| c pre IH].
  - cbn [append]. destruct (n ++ post) eqn:E; cbn [Str.includes];
      rewrite <- E, prefix_app; reflexivity.
  - cbn [append Str.includes]. rewrite IH. apply orb_true_r.
Qed.

(** X10. A forecast text that contains "rain" or "shower", in any mix of
    upper and lower case and wherever in the text, gets the rain icon and
    the advisory "Check weather before heading out", also when it mentions
    thunder. *)
Theorem forecast_mentioning_rain (pre word post : string) :
  Str.toLowerCase word = "rain" \/ Str.toLowerCase word = "shower" ->
  getForecastIcon (pre ++ word ++ post) = "🌧️" /\
  getForecastDescription (pre ++ word ++ post) = "Check weather before heading out".
Proof.
  intros H. unfold getForecastIcon, getForecastDescription. cbv zeta.
  rewrite !toLowerCase_app.
  destruct H as [-> | ->].
  - rewrite includes_app. split; reflexivity.
  - rewrite (includes_app _ "shower"), orb_true_r. split; reflexivity.
Qed.

Lemma forecast_mentioning_rain_witness :
  getForecastIcon ("Afternoon Thundery " ++ "Shower" ++ "s") = "🌧️" /\
  getForecastDescription ("Afternoon Thundery " ++ "Shower" ++ "s")
  = "Check weather before heading out".
Proof.
  apply (forecast_mentioning_rain "Afternoon Thundery " "Shower" "s").
  right. reflexivity.
Defined.

End ForecastText.

(** ** Filtering the events *)

Section Filtering.
Import ShoreSquadApp.
Variable Date_parse : string -> option Z.
Variable LocalTZA : Z -> Z.

Lemma filter_all_true {A} (p : A -> bool) (l : list A) :
  (forall x, In x l -> p x = true) -> filter p l = l.
Proof.
  induction l as [| x rest IH]; intros H; [reflexivity |].
  cbn [filter]. rewrite (H x (or_introl eq_refl)).
  f_equal. apply IH. intros y Hy. apply H. now right.
Qed.

(** X15. With the token "all" among the active filters, or with none of
    "today", "weekend" and "upcoming" among them, [renderFilteredEvents]
    keeps every event, in order, after reading the clock once. *)
Theorem filteredEvents_all (app : ShoreSquadApp.t) (w : world) :
  has (activeFilters app) "all" = true \/
  (has (activeFilters app) "today" = false /\
   has (activeFilters app) "weekend" = false /\
   has (activeFilters app) "upcoming" = false) ->
  filteredEvents Date_parse LocalTZA app w = (Normal (cleanupEvents app), tick w).
Proof.
  intros H. unfold filteredEvents, mbind, Date_now, ret.
  rewrite filter_all_true; [reflexivity |].
  intros event _. unfold eventFilter.
  destruct H as [-> | (-> & -> & ->)]; [reflexivity |].
  now destruct (has (activeFilters app) "all").
Qed.

(** X16. With "upcoming" as the deciding token (none of "all", "today",
    "weekend" active), the events kept are exactly those whose date parses
    and lies strictly after the clock reading; an event with an invalid
    date is dropped. *)
Theorem filteredEvents_upcoming (app : ShoreSquadApp.t) (w : world) :
  has (activeFilters app) "all" = false ->
  has (activeFilters app) "today" = false ->
  has (activeFilters app) "weekend" = false ->
  has (activeFilters app) "upcoming" = true ->
  exists events,
    filteredEvents Date_parse LocalTZA app w = (Normal events, tick w) /\
    forall event,
      In event events <->
      In event (cleanupEvents app) /\
      exists t, Date_parse (date event) = Some t /\ (clock w (clock_reads w) < t)%Z.
Proof.
  intros Hall Htoday Hweekend Hupcoming.
  eexists. split; [reflexivity |].
  intros event. rewrite filter_In. unfold eventFilter.
  rewrite Hall, Htoday, Hweekend, Hupcoming.
  destruct (Date_parse (date event)) as [t |].
  - rewrite Z.ltb_lt. split.
    + intros [Hin Hlt]. split; [exact Hin |]. now exists t.
    + intros [Hin (t' & [= <-] & Hlt)]. now split.
  - split; [intros [_ H]; discriminate H | intros [_ (t & H & _)]; discriminate H].
Qed.
End Filtering.

Lemma filteredEvents_all_witness :
  ShoreSquadApp.filteredEvents MoreSamples.parse_digits (fun _ => 28800000%Z)
    (ShoreSquadApp.handleFilterChange (MoreSamples.app_with ["today"]) "all") Samples.offline
  = (Normal [MoreSamples.event "past" "1000"; MoreSamples.event "next" "9999999999999"],
     tick Samples.offline).
Proof.
  apply (filteredEvents_all MoreSamples.parse_digits (fun _ => 28800000%Z)
           (ShoreSquadApp.handleFilterChange (MoreSamples.app_with ["today"]) "all") Samples.offline).
  left. reflexivity.
Defined.

Lemma filteredEvents_upcoming_witness :
  exists events,
    ShoreSquadApp.filteredEvents MoreSamples.parse_digits (fun _ => 28800000%Z)
      (MoreSamples.app_with ["upcoming"]) Samples.offline = (Normal events, tick Samples.offline) /\
    forall event,
      In event events <->
      In event (ShoreSquadApp.cleanupEvents (MoreSamples.app_with ["upcoming"])) /\
      exists t, MoreSamples.parse_digits (ShoreSquadApp.date event) = Some t /\
                (clock Samples.offline (clock_reads Samples.offline) < t)%Z.
Proof.
  apply (filteredEvents_upcoming MoreSamples.parse_digits (fun _ => 28800000%Z)
           (MoreSamples.app_with ["upcoming"]) Samples.offline); reflexivity.
Defined.

Example filteredEvents_upcoming_sample :
  fst (ShoreSquadApp.filteredEvents MoreSamples.parse_digits (fun _ => 28800000%Z)
         (MoreSamples.app_with ["upcoming"]) Samples.offline)
  = Normal [MoreSamples.event "next" "9999999999999"].
Proof. vm_compute. reflexivity. Qed.

Example toDateString_sample :
  ShoreSquadApp.toDateString (fun _ => 28800000%Z) (Some 1762143300123%Z) = "Mon Nov 03 2025".
Proof. vm_compute. reflexivity. Qed.
